(** * zkrag: the retrieval engine and commitment pipeline

    A shallow embedding of the Python package [zkrag]:
    - [documents.py]    : [Document], [DocumentChunk], [DocumentManager]
    - [vector_store.py] : [VectorStore]
    - [proof.py]        : [ProofGenerator]
    - [rag.py]          : [PrivateRAG]

    Python [str] values are [string]s (characters are the code points
    0..255), Python [int]s are [Z], Python [dict]s are insertion-ordered
    association lists, exceptions are an explicit [result] type, and a
    mutated object is a record threaded through the calls. *)

From Stdlib Require Import List ZArith Lia Bool Ascii String.
From Stdlib Require Import Permutation Sorted PrimFloat FloatOps SpecFloat.
From Stdlib Require Import DecimalString.
Import ListNotations.
Local Open Scope string_scope.
Local Open Scope Z_scope.
Local Open Scope list_scope.

(* ================================================================== *)
(** ** Python strings *)

Module PyStr.

(** [len(s)] *)
Definition len (s : string) : Z := Z.of_nat (String.length s).

Fixpoint take (n : nat) (s : string) : string :=
  match n, s with
  | S n', String c s' => String c (take n' s')
  | _, _ => EmptyString
  end.

Fixpoint drop (n : nat) (s : string) : string :=
  match n, s with
  | S n', String _ s' => drop n' s'
  | _, _ => s
  end.

(** How a slice bound is read: a negative bound counts from the end,
    and the result is clamped into [0 .. len]. *)
Definition clamp (n i : Z) : Z :=
  if i <? 0 then Z.max (i + n) 0 else Z.min i n.

(** [s[start:stop]] *)
Definition slice (s : string) (start stop : Z) : string :=
  let a := clamp (len s) start in
  let b := clamp (len s) stop in
  take (Z.to_nat (b - a)) (drop (Z.to_nat a) s).

(** [s[:stop]] *)
Definition slice_to (s : string) (stop : Z) : string := slice s 0 stop.

(** ["".join(parts)] *)
Definition join (parts : list string) : string := String.concat "" parts.

(** [c * n] for a one-character string [c] *)
Fixpoint repeat (c : ascii) (n : nat) : string :=
  match n with
  | O => EmptyString
  | S n' => String c (repeat c n')
  end.

(** [s.encode()]: UTF-8, one byte below U+0080 and two bytes up to
    U+00FF. *)
Definition encode_char (c : ascii) : list Z :=
  let n := Z.of_nat (nat_of_ascii c) in
  if n <? 128 then [n]
  else [Z.lor 192 (Z.shiftr n 6); Z.lor 128 (Z.land n 63)].

Fixpoint encode (s : string) : list Z :=
  match s with
  | EmptyString => []
  | String c s' => encode_char c ++ encode s'
  end.

(** [sorted(l)] on a list of strings: the ascending order of
    [String.leb], which compares code points left to right. *)
Fixpoint insert_sorted (x : string) (l : list string) : list string :=
  match l with
  | [] => [x]
  | y :: l' => if String.leb x y then x :: l else y :: insert_sorted x l'
  end.

Fixpoint sorted (l : list string) : list string :=
  match l with
  | [] => []
  | x :: l' => insert_sorted x (sorted l')
  end.

(** [s.rstrip(c)] for a one-character [c]: [s] without the characters [c]
    at its end. *)
Fixpoint rstrip (c : ascii) (s : string) : string :=
  match s with
  | EmptyString => EmptyString
  | String x s' =>
      match rstrip c s' with
      | EmptyString => if Ascii.eqb x c then EmptyString else String x EmptyString
      | r => String x r
      end
  end.

(** [s.endswith(c)] for a one-character [c] *)
Fixpoint endswith (c : ascii) (s : string) : bool :=
  match s with
  | EmptyString => false
  | String x EmptyString => Ascii.eqb x c
  | String _ s' => endswith c s'
  end.

End PyStr.

(* ================================================================== *)
(** ** [hashlib.sha256(...).hexdigest()] (FIPS 180-4) *)

Module Sha256.

Definition w32 (x : Z) : Z := x mod 4294967296.
Definition add32 (x y : Z) : Z := w32 (x + y).
Definition rotr (n x : Z) : Z :=
  Z.lor (Z.shiftr x n) (w32 (Z.shiftl x (32 - n))).
Definition not32 (x : Z) : Z := w32 (Z.lnot x).

Definition Ch (x y z : Z) : Z := Z.lxor (Z.land x y) (Z.land (not32 x) z).
Definition Maj (x y z : Z) : Z :=
  Z.lxor (Z.lxor (Z.land x y) (Z.land x z)) (Z.land y z).
Definition Sigma0 (x : Z) : Z :=
  Z.lxor (Z.lxor (rotr 2 x) (rotr 13 x)) (rotr 22 x).
Definition Sigma1 (x : Z) : Z :=
  Z.lxor (Z.lxor (rotr 6 x) (rotr 11 x)) (rotr 25 x).
Definition sigma0 (x : Z) : Z :=
  Z.lxor (Z.lxor (rotr 7 x) (rotr 18 x)) (Z.shiftr x 3).
Definition sigma1 (x : Z) : Z :=
  Z.lxor (Z.lxor (rotr 17 x) (rotr 19 x)) (Z.shiftr x 10).

(** The primes among [2 .. 311]: the first 64. *)
Definition is_prime (c : Z) : bool :=
  forallb (fun d => negb (c mod (Z.of_nat d) =? 0))
          (seq 2 (Z.to_nat c - 2)).

Definition primes : list Z :=
  Eval cbv in filter is_prime (map Z.of_nat (seq 2 310)).

(** The largest [r] below [2 ^ n] with [r ^ 3 <= x], one bit at a time. *)
Fixpoint cube_root (n : nat) (x r : Z) : Z :=
  match n with
  | O => r
  | S n' =>
      let r' := r + 2 ^ Z.of_nat n' in
      if r' * r' * r' <=? x then cube_root n' x r' else cube_root n' x r
  end.

(** The round constants: the first 32 bits of the fractional parts of
    the cube roots of the first 64 primes. *)
Definition K : list Z :=
  Eval cbv in map (fun p => w32 (cube_root 36 (p * 2 ^ 96) 0)) primes.

(** The initial hash value: the first 32 bits of the fractional parts
    of the square roots of the first 8 primes. *)
Definition H0 : list Z :=
  Eval cbv in map (fun p => w32 (Z.sqrt (p * 2 ^ 64))) (firstn 8 primes).

(** Big-endian bytes of [x], [n] of them. *)
Fixpoint be_bytes (n : nat) (x : Z) : list Z :=
  match n with
  | O => []
  | S n' => be_bytes n' (Z.shiftr x 8) ++ [Z.land x 255]
  end.

(** The message, a [0x80] byte, zero bytes up to 56 modulo 64, and the
    bit length on 8 bytes. *)
Definition pad (msg : list Z) : list Z :=
  let l := Z.of_nat (List.length msg) in
  let zeros := Z.to_nat ((55 - l) mod 64) in
  msg ++ [128] ++ List.repeat 0 zeros ++ be_bytes 8 (8 * l).

Fixpoint words (fuel : nat) (bytes : list Z) : list Z :=
  match fuel, bytes with
  | S fuel', b0 :: b1 :: b2 :: b3 :: rest =>
      (((b0 * 256 + b1) * 256 + b2) * 256 + b3) :: words fuel' rest
  | _, _ => []
  end.

(** The message schedule, most recent word first. *)
Fixpoint schedule (n : nat) (rw : list Z) : list Z :=
  match n with
  | O => rw
  | S n' =>
      let w := add32 (add32 (sigma1 (nth 1 rw 0)) (nth 6 rw 0))
                     (add32 (sigma0 (nth 14 rw 0)) (nth 15 rw 0)) in
      schedule n' (w :: rw)
  end.

Record regs := Regs { ra : Z; rb : Z; rc : Z; rd : Z;
                      re : Z; rf : Z; rg : Z; rh : Z }.

Definition round (r : regs) (kw : Z * Z) : regs :=
  let '(k, w) := kw in
  let t1 := add32 (add32 (add32 (rh r) (Sigma1 (re r)))
                         (add32 (Ch (re r) (rf r) (rg r)) k)) w in
  let t2 := add32 (Sigma0 (ra r)) (Maj (ra r) (rb r) (rc r)) in
  Regs (add32 t1 t2) (ra r) (rb r) (rc r) (add32 (rd r) t1)
       (re r) (rf r) (rg r).

Definition regs_of (h : list Z) : regs :=
  Regs (nth 0 h 0) (nth 1 h 0) (nth 2 h 0) (nth 3 h 0)
       (nth 4 h 0) (nth 5 h 0) (nth 6 h 0) (nth 7 h 0).

Definition compress (h : list Z) (block : list Z) : list Z :=
  let w := rev (schedule 48 (rev block)) in
  let r := fold_left round (combine K w) (regs_of h) in
  map (fun p => add32 (fst p) (snd p))
      (combine h [ra r; rb r; rc r; rd r; re r; rf r; rg r; rh r]).

Fixpoint blocks (fuel : nat) (h : list Z) (ws : list Z) : list Z :=
  match fuel with
  | O => h
  | S fuel' =>
      match ws with
      | [] => h
      | _ => blocks fuel' (compress h (firstn 16 ws)) (skipn 16 ws)
      end
  end.

Definition digest (msg : list Z) : list Z :=
  let p := pad msg in
  let ws := words (List.length p) p in
  blocks (List.length ws) H0 ws.

Definition hex_digit (n : Z) : ascii :=
  ascii_of_nat (Z.to_nat (if n <? 10 then 48 + n else 87 + n)).

Fixpoint hex_of (digits : nat) (x : Z) (acc : string) : string :=
  match digits with
  | O => acc
  | S d => hex_of d (Z.shiftr x 4) (String (hex_digit (Z.land x 15)) acc)
  end.

Definition hexdigest (msg : list Z) : string :=
  fold_right (fun w acc => hex_of 8 w acc) EmptyString (digest msg).

End Sha256.

(** [hashlib.sha256(s.encode()).hexdigest()] *)
Definition sha256_hex (s : string) : string :=
  Sha256.hexdigest (PyStr.encode s).

(* ================================================================== *)
(** ** Python values shared by the modules *)

(** The exceptions the package can raise. *)
Inductive exn : Type :=
| ValueError
| RuntimeError
| AttributeError
| IndexError.

Inductive result (A : Type) : Type :=
| Ok (a : A)
| Raise (e : exn).
Arguments Ok {A} a.
Arguments Raise {A} e.

Definition bind {A B : Type} (r : result A) (k : A -> result B) : result B :=
  match r with
  | Ok a => k a
  | Raise e => Raise e
  end.

Notation "x <- r ;; k" := (bind r (fun x => k))
  (at level 61, r at next level, right associativity).

(** A [dict] with [str] keys, in insertion order: assigning to a key that
    is present replaces its value in place, a new key goes to the end. *)
Definition dict (V : Type) : Type := list (string * V).

Fixpoint dict_set {V : Type} (k : string) (v : V) (d : dict V) : dict V :=
  match d with
  | [] => [(k, v)]
  | (k', v') :: d' =>
      if String.eqb k k' then (k, v) :: d' else (k', v') :: dict_set k v d'
  end.

Fixpoint dict_get {V : Type} (k : string) (d : dict V) : option V :=
  match d with
  | [] => None
  | (k', v') :: d' => if String.eqb k k' then Some v' else dict_get k d'
  end.

Definition dict_keys {V : Type} (d : dict V) : list string := map fst d.
Definition dict_values {V : Type} (d : dict V) : list V := map snd d.
Definition dict_len {V : Type} (d : dict V) : Z := Z.of_nat (List.length d).

(** Metadata is stored with the document and never inspected. *)
Definition Metadata : Type := dict string.

(* ================================================================== *)
(** ** documents.py *)

Module Document.
Record t : Type := mk
  { id : string; content : string; metadata : Metadata; hash : string }.
End Document.

Module DocumentChunk.
Record t : Type := mk
  { doc_id : string; chunk_id : Z; content : string;
    start_idx : Z; end_idx : Z }.
End DocumentChunk.

Module DocumentManager.

Record t : Type := mk
  { documents : dict Document.t;
    chunks : dict (list DocumentChunk.t) }.

(** [__init__] *)
Definition init : t := mk [] [].

(** The [while] loop of [_chunk_document].  [fuel] bounds the number of
    iterations; [None] means the loop was still running when the fuel
    ran out. *)
Fixpoint chunk_loop (fuel : nat) (doc_id content : string)
    (chunk_size overlap : Z) (start chunk_id : Z)
    (chunks : list DocumentChunk.t) : option (list DocumentChunk.t) :=
  if start <? PyStr.len content then
    match fuel with
    | O => None
    | S fuel' =>
        let end_ := Z.min (start + chunk_size) (PyStr.len content) in
        let chunk :=
          DocumentChunk.mk doc_id chunk_id
            (PyStr.slice content start end_) start end_ in
        let chunks := chunks ++ [chunk] in
        let chunk_id := chunk_id + 1 in
        let start :=
          if end_ <? PyStr.len content then end_ - overlap else end_ in
        chunk_loop fuel' doc_id content chunk_size overlap
          start chunk_id chunks
    end
  else Some chunks.

(** [_chunk_document(doc, chunk_size, overlap)] *)
Definition _chunk_document (fuel : nat) (doc : Document.t)
    (chunk_size overlap : Z) (self : t) : option t :=
  match chunk_loop fuel (Document.id doc) (Document.content doc)
          chunk_size overlap 0 0 [] with
  | Some cs =>
      Some (mk (documents self) (dict_set (Document.id doc) cs (chunks self)))
  | None => None
  end.

Definition default_chunk_size : Z := 512.
Definition default_overlap : Z := 50.

(** [add_document(content, metadata)].  The chunking runs with its
    default parameters; one iteration per character is more than it
    ever needs (see [add_document_returns]). *)
Definition add_document (content : string) (metadata : option Metadata)
    (self : t) : option (string * t) :=
  let metadata := match metadata with Some m => m | None => [] end in
  let doc_hash := sha256_hex content in
  let doc_id := PyStr.slice_to doc_hash 16 in
  let doc := Document.mk doc_id content metadata doc_hash in
  let self := mk (dict_set doc_id doc (documents self)) (chunks self) in
  match _chunk_document (S (String.length content)) doc
          default_chunk_size default_overlap self with
  | Some self => Some (doc_id, self)
  | None => None
  end.

(** [get_document(doc_id)] *)
Definition get_document (doc_id : string) (self : t) : option Document.t :=
  dict_get doc_id (documents self).

(** [get_chunks(doc_id)] *)
Definition get_chunks (doc_id : string) (self : t) : list DocumentChunk.t :=
  match dict_get doc_id (chunks self) with
  | Some cs => cs
  | None => []
  end.

(** [get_all_chunks()] *)
Definition get_all_chunks (self : t) : list DocumentChunk.t :=
  fold_left (fun all_chunks cs => all_chunks ++ cs)
            (dict_values (chunks self)) [].

(** [generate_commitment()] *)
Definition generate_commitment (self : t) : string :=
  let doc_hashes :=
    PyStr.sorted (map Document.hash (dict_values (documents self))) in
  let combined := PyStr.join doc_hashes in
  sha256_hex combined.

(** [__len__] *)
Definition len (self : t) : Z := dict_len (documents self).

(** [__contains__] *)
Definition contains (doc_id : string) (self : t) : bool :=
  match dict_get doc_id (documents self) with
  | Some _ => true
  | None => false
  end.

(** The dictionary [export_commitment_data] returns, by its keys. *)
Record commitment_data (T : Type) : Type := mk_commitment_data
  { commitment : string;
    document_count : Z;
    document_hashes : list string;
    generated_at : T }.
Arguments mk_commitment_data {T}.
Arguments commitment {T}.
Arguments document_count {T}.
Arguments document_hashes {T}.
Arguments generated_at {T}.

(** [export_commitment_data()]; [now] is what [time.time()] returns. *)
Definition export_commitment_data {T : Type} (now : T) (self : t)
  : commitment_data T :=
  mk_commitment_data
    (generate_commitment self)
    (dict_len (documents self))
    (map Document.hash (dict_values (documents self)))
    now.

(** Adding the documents of a list one after the other. *)
Fixpoint add_documents (contents : list string) (self : t) : option t :=
  match contents with
  | [] => Some self
  | c :: rest =>
      match add_document c None self with
      | Some (_, self') => add_documents rest self'
      | None => None
      end
  end.

End DocumentManager.

(* ================================================================== *)
(** ** numpy *)

(** The floating-point arithmetic the arrays are computed in.  The code
    never fixes a dtype, so the operations are an interface; binary64 is
    the instance [Float_binary64] below. *)
Class Float (F : Type) : Type :=
  { f_zero : F;
    f_eps : F;                      (* the literal [1e-8] *)
    f_add : F -> F -> F;
    f_mul : F -> F -> F;
    f_div : F -> F -> F;
    f_sqrt : F -> F;
    f_lt : F -> F -> bool;          (* [a < b] *)
    f_eq : F -> F -> bool;          (* [a == b] *)
    f_to_int : F -> Z }.            (* [int(a)] *)

Module Np.
Section WithFloat.
Context {F : Type} {FF : Float F}.

(** A one-dimensional array and a two-dimensional one, as its rows. *)
Definition vector : Type := list F.
Definition matrix : Type := list vector.

(** [np.linalg.norm(v)]: the square root of the sum of the squares,
    added up from left to right.  numpy adds in an order and a precision
    of its own, so the last bits of a result can differ; nothing stated
    in general depends on the value of a sum. *)
Definition norm (v : vector) : F :=
  f_sqrt (fold_left (fun acc x => f_add acc (f_mul x x)) v f_zero).

(** [v / s] for a scalar [s] *)
Definition div_scalar (v : vector) (s : F) : vector :=
  map (fun x => f_div x s) v.

(** [np.dot(a, b)] of two one-dimensional arrays of one length, the
    products added up from left to right (as for [norm], numpy's last
    bits can differ). *)
Definition dot1 (a b : vector) : F :=
  fold_left (fun acc p => f_add acc (f_mul (fst p) (snd p)))
            (combine a b) f_zero.

(** [np.dot(m, v)]: one product per row; the shapes must agree. *)
Definition dot (m : matrix) (v : vector) : result vector :=
  if forallb (fun row => Nat.eqb (List.length row) (List.length v)) m
  then Ok (map (fun row => dot1 row v) m)
  else Raise ValueError.

(** The order numpy sorts floating-point numbers in: [<], with NaN
    after everything else. *)
Definition less (a b : F) : bool :=
  f_lt a b || (negb (f_eq b b) && f_eq a a).

(** Inserting index [i] into a list of indices sorted by their values:
    it goes before the first index whose value is greater. *)
Fixpoint argsort_insert (a : vector) (i : nat) (sorted : list nat)
  : list nat :=
  match sorted with
  | [] => [i]
  | j :: rest =>
      if less (nth i a f_zero) (nth j a f_zero)
      then i :: sorted
      else j :: argsort_insert a i rest
  end.

(** The first [n] indices of [a], sorted: index [n-1] is inserted into
    the sorted indices before it, without passing an equal value. *)
Fixpoint argsort_upto (a : vector) (n : nat) : list nat :=
  match n with
  | O => []
  | S m => argsort_insert a m (argsort_upto a m)
  end.

(** [np.argsort(a)]: the indices of [a] in ascending order of their
    values.  numpy's default sort is not stable: the order it leaves the
    indices of equal values in is not specified and differs between
    builds.  This model takes one of the ascending orders, the one of
    insertion sort, where equal values keep the order of their indices.
    What is stated of [search] in general uses only that [argsort] lists
    every index once, in ascending order of the values. *)
Definition argsort (a : vector) : list nat :=
  argsort_upto a (List.length a).

End WithFloat.
End Np.

(** [l[start:]] on a list *)
Definition list_slice_from {A : Type} (l : list A) (start : Z) : list A :=
  skipn (Z.to_nat (PyStr.clamp (Z.of_nat (List.length l)) start)) l.

(** [l[::-1]] *)
Definition list_reversed {A : Type} (l : list A) : list A := rev l.

(** [[f(x) for x in l]] where [f] can raise *)
Fixpoint mapM {A B : Type} (f : A -> result B) (l : list A)
  : result (list B) :=
  match l with
  | [] => Ok []
  | x :: l' => y <- f x ;; ys <- mapM f l' ;; Ok (y :: ys)
  end.

(* ================================================================== *)
(** ** vector_store.py *)

Module VectorStore.
Section WithFloat.
Context {F : Type} {FF : Float F} {C : Type}.

Record t : Type := mk
  { embeddings : Np.matrix (F := F);
    chunks : list C }.

(** [__init__] *)
Definition init : t := mk [] [].

(** [add_embeddings(embeddings, chunks)]: the outcome of the call and
    the store after it. *)
Definition add_embeddings (embeddings : Np.matrix) (chunks : list C)
  (self : t) : result unit * t :=
  if negb (Nat.eqb (List.length embeddings) (List.length chunks))
  then (Raise ValueError, self)
  else (Ok tt, mk embeddings chunks).

(** [_cosine_similarity(query, vectors)], for a matrix: rows of one
    length.  On rows of different lengths numpy already fails in
    [np.linalg.norm], with an error of its own; here such rows fail in
    [Np.dot], and nothing is stated about them. *)
Definition _cosine_similarity (query : Np.vector) (vectors : Np.matrix)
  : result Np.vector :=
  let query_norm := Np.div_scalar query (f_add (Np.norm query) f_eps) in
  let vectors_norm :=
    map (fun v => Np.div_scalar v (f_add (Np.norm v) f_eps)) vectors in
  Np.dot vectors_norm query_norm.

(** [self.chunks[i]] *)
Definition chunk_at (self : t) (i : nat) : result C :=
  match nth_error (chunks self) i with
  | Some c => Ok c
  | None => Raise IndexError
  end.

(** [np.argsort(similarities)[-top_k:][::-1]] *)
Definition top_indices (similarities : Np.vector) (top_k : Z) : list nat :=
  list_reversed (list_slice_from (Np.argsort similarities) (- top_k)).

(** [search(query_embedding, top_k)] *)
Definition search (query_embedding : Np.vector) (top_k : Z) (self : t)
  : result (list C) :=
  if Nat.eqb (List.length (embeddings self)) 0 then Ok []
  else
    similarities <- _cosine_similarity query_embedding (embeddings self) ;;
    mapM (chunk_at self) (top_indices similarities top_k).

Definition default_top_k : Z := 3.

(** [__len__] *)
Definition len (self : t) : Z := Z.of_nat (List.length (embeddings self)).

End WithFloat.
Arguments t : clear implicits.
End VectorStore.

(* ================================================================== *)
(** ** proof.py *)

Module ProofGenerator.

Record t : Type := mk { _rust_available : bool }.

(** [__init__]: [importable] tells whether [import zkrag_rust] works. *)
Definition init (importable : bool) : t := mk importable.

(** The arguments of [generate_proof], in their order. *)
Record request (F : Type) : Type := mk_request
  { document_hashes : list string;
    query_text : string;
    query_embedding : list F;
    search_results : list Z;
    document_commitment : string;
    model_hash : string;
    timestamp : Z }.

(** The sentinel returned without a backend: ["0" * 256]. *)
Definition placeholder_proof : string := PyStr.repeat "0"%char 256.

(** [generate_proof(...)].  [zkrag_rust] is the extension module's
    [generate_proof]; [None] stands for any exception it raises. *)
Definition generate_proof {F : Type}
  (zkrag_rust : request F -> option string) (req : request F) (self : t)
  : result string :=
  if negb (_rust_available self) then Ok placeholder_proof
  else
    match zkrag_rust req with
    | Some proof_hex => Ok proof_hex
    | None => Raise RuntimeError
    end.

(** [is_available()] *)
Definition is_available (self : t) : bool := _rust_available self.

End ProofGenerator.

(* ================================================================== *)
(** ** embeddings.py *)

Module EmbeddingGenerator.

Record t : Type := mk { model_name : string }.

Definition default_model_name : string :=
  "sentence-transformers/all-MiniLM-L6-v2".

(** [get_model_hash()] *)
Definition get_model_hash (self : t) : string :=
  sha256_hex (model_name self).

End EmbeddingGenerator.

(* ================================================================== *)
(** ** rag.py *)

Module RAGResponse.
Record t (F : Type) : Type := mk
  { answer : string;
    sources : list DocumentChunk.t;
    query : string;
    proof : option string;
    timestamp : F }.
Arguments mk {F}.
Arguments answer {F}.
Arguments sources {F}.
Arguments query {F}.
Arguments proof {F}.
Arguments timestamp {F}.
End RAGResponse.

(** [str(n)] for an [int] *)
Definition str_of_int (n : Z) : string :=
  DecimalString.NilZero.string_of_int (Z.to_int n).

(** The line feed character *)
Definition LF : string := String (ascii_of_nat 10) EmptyString.

(** [[f(i, x) for i, x in enumerate(l)]], counting from [i] *)
Fixpoint map_enumerate {A B : Type} (f : Z -> A -> B) (i : Z) (l : list A)
  : list B :=
  match l with
  | [] => []
  | x :: l' => f i x :: map_enumerate f (i + 1) l'
  end.

(** [list(set(l))]: the distinct members of [l].  Python lists a set in
    an order that depends on the hash seed of the process; here it is
    the order of the last occurrences, and nothing is stated about the
    order. *)
Definition list_set (l : list string) : list string :=
  nodup string_dec l.

Module PrivateRAG.
Section WithBackends.
Context {F : Type} {FF : Float F}.

(** [self.model.encode(text)] and [self.model.encode(texts)] of the
    loaded sentence-transformers model. *)
Variable encode_text : string -> Np.vector (F := F).
Variable encode_batch : list string -> Np.matrix (F := F).

(** [zkrag_rust.generate_proof], [None] when it raises. *)
Variable zkrag_rust : ProofGenerator.request F -> option string.

Record t : Type := mk
  { doc_manager : DocumentManager.t;
    embedding_gen : EmbeddingGenerator.t;
    vector_store : VectorStore.t F DocumentChunk.t;
    proof_gen : ProofGenerator.t }.

(** [__init__(documents_dir=None, model_name)]; [importable] tells
    whether the proof backend can be imported. *)
Definition init (model_name : string) (importable : bool) : t :=
  mk DocumentManager.init (EmbeddingGenerator.mk model_name)
     VectorStore.init (ProofGenerator.init importable).

(** [_index_documents()] *)
Definition _index_documents (self : t) : result unit * t :=
  let all_chunks := DocumentManager.get_all_chunks (doc_manager self) in
  match all_chunks with
  | [] => (Ok tt, self)
  | _ =>
      let texts := map DocumentChunk.content all_chunks in
      let embeddings := encode_batch texts in
      let '(r, vs) :=
        VectorStore.add_embeddings embeddings all_chunks (vector_store self) in
      (r, mk (doc_manager self) (embedding_gen self) vs (proof_gen self))
  end.

(** [add_document(content, metadata)] *)
Definition add_document (content : string) (metadata : option Metadata)
  (self : t) : option (result string * t) :=
  match DocumentManager.add_document content metadata (doc_manager self) with
  | None => None
  | Some (doc_id, dm) =>
      let self :=
        mk dm (embedding_gen self) (vector_store self) (proof_gen self) in
      let '(r, self) := _index_documents self in
      Some (_ <- r ;; Ok doc_id, self)
  end.

(** [_generate_answer(question, chunks)] *)
Definition _generate_answer (question : string)
  (chunks : list DocumentChunk.t) : string :=
  match chunks with
  | [] => "No relevant information found."
  | _ =>
      let context :=
        String.concat (LF ++ LF)%string
          (map_enumerate
             (fun i chunk =>
                ("[" ++ str_of_int (i + 1) ++ "] "
                     ++ DocumentChunk.content chunk)%string)
             0 chunks) in
      ("Based on " ++ str_of_int (Z.of_nat (List.length chunks))
         ++ " relevant passages:" ++ LF ++ LF
         ++ PyStr.slice_to context 500 ++ "...")%string
  end.

(** [self.doc_manager.get_document(doc_id).hash] *)
Definition document_hash_of (self : t) (doc_id : string) : result string :=
  match DocumentManager.get_document doc_id (doc_manager self) with
  | Some doc => Ok (Document.hash doc)
  | None => Raise AttributeError
  end.

(** [_generate_query_proof(query, query_embedding, results, timestamp)] *)
Definition _generate_query_proof (query : string)
  (query_embedding : Np.vector) (results : list DocumentChunk.t)
  (timestamp : F) (self : t) : result string :=
  let doc_ids := list_set (map DocumentChunk.doc_id results) in
  document_hashes <- mapM (document_hash_of self) doc_ids ;;
  let document_commitment :=
    DocumentManager.generate_commitment (doc_manager self) in
  let model_hash := EmbeddingGenerator.get_model_hash (embedding_gen self) in
  ProofGenerator.generate_proof zkrag_rust
    (ProofGenerator.mk_request F document_hashes query query_embedding
       (map DocumentChunk.chunk_id results) document_commitment model_hash
       (f_to_int timestamp))
    (proof_gen self).

(** [query(question, top_k, generate_proof)]; [now] is what
    [time.time()] returns. *)
Definition query (question : string) (top_k : Z) (generate_proof : bool)
  (now : F) (self : t) : result (RAGResponse.t F) :=
  let timestamp := now in
  let query_embedding := encode_text question in
  results <- VectorStore.search query_embedding top_k (vector_store self) ;;
  let answer := _generate_answer question results in
  proof_hex <-
    (if generate_proof
     then p <- _generate_query_proof question query_embedding results
                 timestamp self ;; Ok (Some p)
     else Ok None) ;;
  Ok (RAGResponse.mk answer results question proof_hex timestamp).

(** [register_documents()] *)
Definition register_documents (self : t) : string :=
  DocumentManager.generate_commitment (doc_manager self).

(** [embedding_gen.get_embedding_dimension()]: the length of the
    embedding of ["test"]. *)
Definition get_embedding_dimension : Z :=
  Z.of_nat (List.length (encode_text "test")).

(** The dictionary [get_stats] returns, by its keys. *)
Record stats : Type := mk_stats
  { num_documents : Z;
    num_chunks : Z;
    embedding_dimension : Z;
    model_name : string;
    model_hash : string;
    commitment : string }.

(** [get_stats()] *)
Definition get_stats (self : t) : stats :=
  mk_stats
    (DocumentManager.len (doc_manager self))
    (Z.of_nat (List.length
                 (DocumentManager.get_all_chunks (doc_manager self))))
    get_embedding_dimension
    (EmbeddingGenerator.model_name (embedding_gen self))
    (EmbeddingGenerator.get_model_hash (embedding_gen self))
    (register_documents self).

(** The pipeline after [add_document] of each content in turn, from a
    given pipeline; [None] if a call does not return or raises. *)
Fixpoint add_documents (contents : list string) (self : t) : option t :=
  match contents with
  | [] => Some self
  | c :: rest =>
      match add_document c None self with
      | Some (Ok _, self') => add_documents rest self'
      | _ => None
      end
  end.

End WithBackends.
End PrivateRAG.

(* ================================================================== *)
(** ** verifier.py *)

#[local] Set Warnings "-register-all".

(** The values a decoded JSON body and the fields of a result hold;
    numbers are the integers. *)
Inductive pyvalue : Type :=
| PNone
| PBool (b : bool)
| PInt (n : Z)
| PStr (s : string)
| PList (l : list pyvalue)
| PDict (d : list (string * pyvalue)).

(** What a call of [requests.post] or [requests.get] comes to: a
    [RequestException] is raised, [e] being its [str], or a response
    arrives with a status code and a JSON body, here decoded.  A body
    that is not JSON is not part of this model. *)
Inductive http_outcome : Type :=
| RequestFailed (e : string)
| Responded (status_code : Z) (body : pyvalue).

(** [data.get(key, default)]: only a dictionary has [get]. *)
Definition py_get (data : pyvalue) (key : string) (default : pyvalue)
  : result pyvalue :=
  match data with
  | PDict d =>
      match dict_get key d with
      | Some v => Ok v
      | None => Ok default
      end
  | _ => Raise AttributeError
  end.

Module VerificationResult.
Record t : Type := mk
  { is_valid : pyvalue; query_id : pyvalue; message : pyvalue }.
End VerificationResult.

Module NockchainVerifier.

Record t : Type := mk { endpoint : string }.

Definition default_endpoint : string := "http://localhost:8080".

(** [__init__(endpoint)] *)
Definition init (endpoint : string) : t :=
  mk (PyStr.rstrip "/"%char endpoint).

Section WithNetwork.

(** [requests.post(url, json=payload, timeout=t)] and
    [requests.get(url, timeout=t)]. *)
Variable post : string -> pyvalue -> Z -> http_outcome.
Variable get : string -> Z -> http_outcome.

(** The [str] of the [HTTPError] that [raise_for_status] raises for a
    status code. *)
Variable http_error : Z -> string.

(** [response.raise_for_status()] raises for the codes 400 to 599. *)
Definition raises_for_status (status_code : Z) : bool :=
  (400 <=? status_code) && (status_code <? 600).

(** The dictionary of the [except] branches. *)
Definition failure_receipt (e : string) : pyvalue :=
  PDict [("success", PBool false); ("error", PStr e)].

(** [register_commitment(commitment, owner)] *)
Definition register_commitment (commitment owner : string) (self : t)
  : pyvalue :=
  match post (endpoint self ++ "/api/v1/document/register")%string
             (PDict [("commitment", PStr commitment); ("owner", PStr owner)])
             10 with
  | RequestFailed e => failure_receipt e
  | Responded status_code body =>
      if raises_for_status status_code
      then failure_receipt (http_error status_code)
      else body
  end.

(** [verify_query(proof, document_commitment, model_hash, timestamp)] *)
Definition verify_query (proof document_commitment model_hash : string)
  (timestamp : Z) (self : t) : result VerificationResult.t :=
  let failed (e : string) :=
    Ok (VerificationResult.mk (PBool false) PNone
          (PStr ("Verification failed: " ++ e)%string)) in
  match post (endpoint self ++ "/api/v1/query/verify")%string
             (PDict [("proof", PStr proof);
                     ("document_commitment", PStr document_commitment);
                     ("model_hash", PStr model_hash);
                     ("timestamp", PInt timestamp)])
             30 with
  | RequestFailed e => failed e
  | Responded status_code data =>
      if raises_for_status status_code then failed (http_error status_code)
      else
        is_valid <- py_get data "valid" (PBool false) ;;
        query_id <- py_get data "query_id" PNone ;;
        message <- py_get data "message" (PStr "") ;;
        Ok (VerificationResult.mk is_valid query_id message)
  end.

(** [get_query(query_id)] *)
Definition get_query (query_id : Z) (self : t) : pyvalue :=
  match get (endpoint self ++ "/api/v1/query/" ++ str_of_int query_id)%string
            10 with
  | RequestFailed e => failure_receipt e
  | Responded status_code body =>
      if raises_for_status status_code
      then failure_receipt (http_error status_code)
      else body
  end.

(** [health_check()] *)
Definition health_check (self : t) : bool :=
  match get (endpoint self ++ "/health")%string 5 with
  | RequestFailed _ => false
  | Responded status_code _ => status_code =? 200
  end.

End WithNetwork.
End NockchainVerifier.

(* ================================================================== *)
(** ** Concrete collaborators for worked examples *)

(** [int(x)] of a binary64 number: truncation toward zero (0 for an
    infinity or a NaN, where Python raises). *)
Definition binary64_to_int (x : float) : Z :=
  match FloatOps.Prim2SF x with
  | SpecFloat.S754_finite s m e =>
      let v := if 0 <=? e then Z.pos m * 2 ^ e else Z.pos m / 2 ^ (- e) in
      if s then - v else v
  | _ => 0
  end.

#[export] Instance Float_binary64 : Float float :=
  { f_zero := 0%float;
    f_eps := 0x1.5798ee2308c3ap-27%float;
    f_add := PrimFloat.add;
    f_mul := PrimFloat.mul;
    f_div := PrimFloat.div;
    f_sqrt := PrimFloat.sqrt;
    f_lt := PrimFloat.ltb;
    f_eq := PrimFloat.eqb;
    f_to_int := binary64_to_int }.

(** A toy embedding model in two dimensions: texts that mention a cat
    point along the first axis, all others along the second. *)
Fixpoint mentions_cat (s : string) : bool :=
  match s with
  | String "c" (String "a" (String "t" _)) => true
  | String _ s' => mentions_cat s'
  | EmptyString => false
  end.

Definition toy_encode_text (s : string) : list float :=
  if mentions_cat s then [1%float; 0%float] else [0%float; 1%float].

Definition toy_encode_batch (l : list string) : list (list float) :=
  map toy_encode_text l.

(** No proof backend. *)
Definition no_rust (_ : ProofGenerator.request float) : option string := None.

(* ================================================================== *)
(** ** Vocabulary of the properties *)

(** The identifier [add_document] gives a content: [doc_hash[:16]]. *)
Definition doc_id_of (content : string) : string :=
  PyStr.slice_to (sha256_hex content) 16.

(** A chunk text without its first [overlap] characters. *)
Definition without_overlap (overlap : Z) (c : DocumentChunk.t) : string :=
  PyStr.drop (Z.to_nat overlap) (DocumentChunk.content c).

(** The chunk texts put back together: the first chunk whole, every
    later chunk without the characters it shares with the one before. *)
Definition reassemble (overlap : Z) (chunks : list DocumentChunk.t)
  : string :=
  match chunks with
  | [] => EmptyString
  | c :: rest =>
      (DocumentChunk.content c
         ++ PyStr.join (map (without_overlap overlap) rest))%string
  end.

(** One iteration of the chunking loop from start [s]: where the window
    ends, the chunk it emits and the next start. *)
Definition window_end (content : string) (chunk_size s : Z) : Z :=
  Z.min (s + chunk_size) (PyStr.len content).

Definition window (doc_id content : string) (chunk_size s cid : Z)
  : DocumentChunk.t :=
  DocumentChunk.mk doc_id cid
    (PyStr.slice content s (window_end content chunk_size s))
    s (window_end content chunk_size s).

Definition next_start (content : string) (chunk_size overlap s : Z) : Z :=
  if window_end content chunk_size s <? PyStr.len content
  then window_end content chunk_size s - overlap
  else window_end content chunk_size s.

(** [0 <= start < end <= len(content)] *)
Definition chunk_in_bounds (content : string) (c : DocumentChunk.t) : Prop :=
  0 <= DocumentChunk.start_idx c < DocumentChunk.end_idx c
  /\ DocumentChunk.end_idx c <= PyStr.len content.

(** Each chunk starts strictly after the one before it. *)
Definition starts_advance (chunks : list DocumentChunk.t) : Prop :=
  Sorted (fun a b => DocumentChunk.start_idx a < DocumentChunk.start_idx b)
         chunks.

(** No two contents of the list share an identifier unless they share
    their hash. *)
Definition ids_determine_hashes (contents : list string) : Prop :=
  forall c c', In c contents -> In c' contents ->
    doc_id_of c = doc_id_of c' -> sha256_hex c = sha256_hex c'.

(** The content hashes a store holds, in the order of its documents. *)
Definition stored_hashes (self : DocumentManager.t) : list string :=
  map Document.hash (dict_values (DocumentManager.documents self)).

(** What holds of a store filled by [add_document] with contents among
    [contents]: one document per identifier, each under the identifier
    of its content, and an identifier for every content. *)
Definition store_of (contents : list string) (self : DocumentManager.t)
  : Prop :=
  NoDup (dict_keys (DocumentManager.documents self))
  /\ (forall k d, In (k, d) (DocumentManager.documents self) ->
        k = doc_id_of (Document.content d)
        /\ Document.hash d = sha256_hex (Document.content d)
        /\ In (Document.content d) contents)
  /\ (forall c, In c contents ->
        In (doc_id_of c) (dict_keys (DocumentManager.documents self))).

(** Two texts whose SHA-256 digests differ and start with the same 16
    hexadecimal digits. *)
Definition twin_a : string := "doc f7911e54fc6f4c1b".
Definition twin_b : string := "doc 0d7ed845e82c681f".

(** The store after adding ["the cat sat"] and ["the dog ran"]. *)
Definition two_documents : DocumentManager.t :=
  match DocumentManager.add_documents ["the cat sat"; "the dog ran"]
          DocumentManager.init with
  | Some dm => dm
  | None => DocumentManager.init
  end.

(** The similarities [_cosine_similarity] computes when the shapes
    agree. *)
Definition similarities {F : Type} {FF : Float F}
  (query : Np.vector (F := F)) (vectors : Np.matrix (F := F))
  : Np.vector (F := F) :=
  map (fun v =>
         Np.dot1 (Np.div_scalar v (f_add (Np.norm v) f_eps))
                 (Np.div_scalar query (f_add (Np.norm query) f_eps)))
      vectors.

(** An index whose rows all have the dimension of the query, with one
    chunk per row. *)
Definition well_shaped {F : Type} {FF : Float F} {C : Type}
  (query : Np.vector (F := F)) (self : VectorStore.t F C) : Prop :=
  Forall (fun row => List.length row = List.length query)
         (VectorStore.embeddings self)
  /\ List.length (VectorStore.embeddings self)
     = List.length (VectorStore.chunks self).

(** [Np.less] orders the values of [l] as a strict weak order: it is
    asymmetric, and [a < b] with [c] not below [b] gives [a < c]. *)
Definition weak_order_on {F : Type} {FF : Float F} (l : list F) : bool :=
  forallb (fun a => forallb (fun b =>
    implb (Np.less a b) (negb (Np.less b a))
    && forallb (fun c =>
         implb (Np.less a b && negb (Np.less c b)) (Np.less a c)) l) l) l.

(** Entry [j] is not more similar to the query than entry [i]: [i] can
    stand before [j] in a ranking by similarity, most similar first. *)
Definition not_more_similar {F : Type} {FF : Float F}
  (sims : Np.vector (F := F)) (i j : nat) : Prop :=
  Np.less (nth i sims f_zero) (nth j sims f_zero) = false.

(** A list of indices in ascending order of their values in [a], equal
    values in any order: no index stands before one of a smaller value. *)
Definition ascending {F : Type} {FF : Float F} (a : Np.vector (F := F))
  (idxs : list nat) : Prop :=
  StronglySorted (fun i j => not_more_similar a j i) idxs.

(** The order of the model's [argsort], read from the end: index [i]
    stands before index [j] when its value is greater, or the two are
    tied and [i] is the higher index. *)
Definition ranked_before {F : Type} {FF : Float F} (sims : Np.vector (F := F))
  (i j : nat) : Prop :=
  Np.less (nth j sims f_zero) (nth i sims f_zero) = true
  \/ (Np.less (nth i sims f_zero) (nth j sims f_zero) = false
      /\ Np.less (nth j sims f_zero) (nth i sims f_zero) = false
      /\ (j < i)%nat).

(** Index [i] comes before index [j] in ascending order: its value is
    not above, and on a tie it is the lower index. *)
Definition sorts_before {F : Type} {FF : Float F} (a : Np.vector (F := F))
  (i j : nat) : Prop := ranked_before a j i.

(** Hand-built binary64 indexes: two chunks with one embedding; one
    chunk; three chunks of which the first two share their embedding. *)
Definition axis_x : list float := [1%float; 0%float].
Definition axis_y : list float := [0%float; 1%float].

Definition tied_store : VectorStore.t float string :=
  VectorStore.mk [axis_x; axis_x] ["c0"; "c1"].

Definition one_entry_store : VectorStore.t float string :=
  VectorStore.mk [axis_x] ["c0"].

Definition three_entry_store : VectorStore.t float string :=
  VectorStore.mk [axis_x; axis_x; axis_y] ["c0"; "c1"; "c2"].

(** Rows of different lengths, as an array of objects can hold them. *)
Definition ragged_rows : list (list float) := [[1%float; 0%float]; [1%float]].

(** Every chunk the store holds belongs to a document of the store. *)
Definition chunks_have_documents (dm : DocumentManager.t) : Prop :=
  forall k cs c, In (k, cs) (DocumentManager.chunks dm) -> In c cs ->
    In (DocumentChunk.doc_id c) (dict_keys (DocumentManager.documents dm)).

(** What holds of a pipeline between two calls, for an embedding model
    of dimension [dim]: the index has one row of [dim] numbers per chunk,
    and its chunks belong to documents of the store. *)
Definition pipeline_ok {F : Type} {FF : Float F} (dim : nat)
  (self : PrivateRAG.t (F := F)) : Prop :=
  chunks_have_documents (PrivateRAG.doc_manager self)
  /\ List.length (VectorStore.embeddings (PrivateRAG.vector_store self))
     = List.length (VectorStore.chunks (PrivateRAG.vector_store self))
  /\ Forall (fun row => List.length row = dim)
       (VectorStore.embeddings (PrivateRAG.vector_store self))
  /\ Forall (fun c =>
         In (DocumentChunk.doc_id c)
            (dict_keys (DocumentManager.documents
                          (PrivateRAG.doc_manager self))))
       (VectorStore.chunks (PrivateRAG.vector_store self)).

(** The pipelines [add_document] builds from a new one. *)
Inductive reachable {F : Type} {FF : Float F}
  (encode_batch : list string -> Np.matrix (F := F))
  (model_name : string) (importable : bool)
  : PrivateRAG.t (F := F) -> Prop :=
| reachable_init :
    reachable encode_batch model_name importable
      (PrivateRAG.init model_name importable)
| reachable_add_document self content metadata r self' :
    reachable encode_batch model_name importable self ->
    PrivateRAG.add_document encode_batch content metadata self
    = Some (r, self') ->
    reachable encode_batch model_name importable self'.

(** Pipelines without proof backend, with the toy model: a new one,
    and the ones after [add_document] of one text and of a second. *)
Definition toy_pipeline_0 : PrivateRAG.t (F := float) :=
  PrivateRAG.init EmbeddingGenerator.default_model_name false.

Definition toy_pipeline_1 : PrivateRAG.t (F := float) :=
  match PrivateRAG.add_document toy_encode_batch "the cat sat" None
          toy_pipeline_0 with
  | Some (_, self) => self
  | None => toy_pipeline_0
  end.

Definition toy_pipeline_2 : PrivateRAG.t (F := float) :=
  match PrivateRAG.add_document toy_encode_batch "the dog ran" None
          toy_pipeline_1 with
  | Some (_, self) => self
  | None => toy_pipeline_1
  end.

(** A chunk of document [doc_id] cut from [content]: its text is the
    slice between its offsets, as long as the offsets are apart, and no
    longer than [chunk_size]. *)
Definition chunk_well_formed (doc_id content : string) (chunk_size : Z)
  (c : DocumentChunk.t) : Prop :=
  DocumentChunk.doc_id c = doc_id
  /\ DocumentChunk.content c
     = PyStr.slice content (DocumentChunk.start_idx c) (DocumentChunk.end_idx c)
  /\ PyStr.len (DocumentChunk.content c)
     = DocumentChunk.end_idx c - DocumentChunk.start_idx c
  /\ DocumentChunk.end_idx c - DocumentChunk.start_idx c <= chunk_size.

(** Chunk [a] is full and chunk [b] starts [overlap] characters before
    the end of [a]. *)
Definition overlaps_next (chunk_size overlap : Z) (a b : DocumentChunk.t)
  : Prop :=
  DocumentChunk.end_idx a - DocumentChunk.start_idx a = chunk_size
  /\ DocumentChunk.start_idx b = DocumentChunk.end_idx a - overlap.

(** The chunk identifiers of a list are 0, 1, 2, ... from [first]. *)
Fixpoint numbered_from (first : Z) (chunks : list DocumentChunk.t) : Prop :=
  match chunks with
  | [] => True
  | c :: rest =>
      DocumentChunk.chunk_id c = first /\ numbered_from (first + 1) rest
  end.

(** The store has a list of chunks for every document and for nothing
    else, in the order of the documents. *)
Definition keys_in_sync (dm : DocumentManager.t) : Prop :=
  dict_keys (DocumentManager.chunks dm)
  = dict_keys (DocumentManager.documents dm).

(** A pipeline with a proof backend, with the toy model, after
    [add_document] of one text. *)
Definition toy_pipeline_backend : PrivateRAG.t (F := float) :=
  match PrivateRAG.add_document toy_encode_batch "the cat sat" None
          (PrivateRAG.init EmbeddingGenerator.default_model_name true) with
  | Some (_, self) => self
  | None => PrivateRAG.init EmbeddingGenerator.default_model_name true
  end.

(** A verification service that accepts every proof, and the text of
    its HTTP errors. *)
Definition accepting_service (url : string) (payload : pyvalue) (timeout : Z)
  : http_outcome :=
  Responded 200
    (PDict [("valid", PBool true); ("query_id", PInt 7);
            ("message", PStr "verified")]).

Definition status_text (status_code : Z) : string :=
  (str_of_int status_code ++ " Error")%string.

(* ================================================================== *)
(** * Properties *)

(** ** Worked examples: hashing, chunking, identifiers *)

Example sha256_hex_empty :
  sha256_hex "" =
  "e3b0c44298fc1c149afbf4c8996fb92427ae41e4649b934ca495991b7852b855".
Proof. vm_compute. reflexivity. Qed.

Example sha256_hex_abc :
  sha256_hex "abc" =
  "ba7816bf8f01cfea414140de5dae2223b00361a396177a9cb410ff61f20015ad".
Proof. vm_compute. reflexivity. Qed.

Example sha256_hex_two_blocks :
  sha256_hex (PyStr.repeat "a"%char 200) =
  "c2a908d98f5df987ade41b5fce213067efbcc21ef2240212a41e54b5e7c28ae5".
Proof. vm_compute. reflexivity. Qed.

(** One character above U+007F, two bytes in UTF-8: U+00E9. *)
Example sha256_hex_two_byte_character :
  sha256_hex (String (ascii_of_nat 233) EmptyString) =
  "4a99557e4033c3539de2eb65472017cad5f9557f7a0625a09f1c3f6e2ba69c4c".
Proof. vm_compute. reflexivity. Qed.

Example chunk_loop_ten_by_four :
  DocumentManager.chunk_loop 11 "d" "abcdefghij" 4 1 0 0 [] =
  Some [ DocumentChunk.mk "d" 0 "abcd" 0 4;
         DocumentChunk.mk "d" 1 "defg" 3 7;
         DocumentChunk.mk "d" 2 "ghij" 6 10 ].
Proof. vm_compute. reflexivity. Qed.

Example add_document_abc :
  option_map fst (DocumentManager.add_document "abc" None DocumentManager.init)
  = Some "ba7816bf8f01cfea".
Proof. vm_compute. reflexivity. Qed.

(** ** Strings and slices *)

Lemma take_length (n : nat) (s : string) :
  String.length (PyStr.take n s) = Nat.min n (String.length s).
Proof.
  revert s; induction n as [|n IH]; intros [|c s]; simpl; auto.
Qed.

Lemma drop_length (n : nat) (s : string) :
  String.length (PyStr.drop n s) = (String.length s - n)%nat.
Proof.
  revert s; induction n as [|n IH]; intros [|c s]; simpl; auto.
Qed.

Lemma take_drop_append (n : nat) (s : string) :
  (PyStr.take n s ++ PyStr.drop n s)%string = s.
Proof.
  revert s; induction n as [|n IH]; intros [|c s]; simpl; auto.
  now rewrite IH.
Qed.

Lemma take_all (n : nat) (s : string) :
  (String.length s <= n)%nat -> PyStr.take n s = s.
Proof.
  revert s; induction n as [|n IH]; intros [|c s] H; simpl in *; auto.
  - lia.
  - rewrite IH; auto; lia.
Qed.

Lemma drop_all (n : nat) (s : string) :
  (String.length s <= n)%nat -> PyStr.drop n s = EmptyString.
Proof.
  revert s; induction n as [|n IH]; intros [|c s] H; simpl in *; auto.
  - lia.
  - apply IH; lia.
Qed.

Lemma drop_drop (a b : nat) (s : string) :
  PyStr.drop a (PyStr.drop b s) = PyStr.drop (b + a) s.
Proof.
  revert s; induction b as [|b IH]; intros s; simpl; auto.
  destruct s as [|c s]; simpl.
  - now destruct a.
  - apply IH.
Qed.

Lemma drop_take (a b : nat) (s : string) :
  PyStr.drop a (PyStr.take b s) = PyStr.take (b - a) (PyStr.drop a s).
Proof.
  revert b s; induction a as [|a IH]; intros b s; simpl.
  - now rewrite Nat.sub_0_r.
  - destruct b as [|b]; simpl.
    + now destruct s.
    + destruct s as [|c s]; simpl; auto.
      now destruct (b - a)%nat.
Qed.

Lemma append_empty_r (s : string) : (s ++ "")%string = s.
Proof. induction s; simpl; congruence. Qed.

Lemma join_cons (x : string) (l : list string) :
  PyStr.join (x :: l) = (x ++ PyStr.join l)%string.
Proof.
  unfold PyStr.join. destruct l; simpl; auto. now rewrite append_empty_r.
Qed.

(** A slice with bounds inside the string is the plain substring. *)
Lemma slice_inside (s : string) (a b : Z) :
  0 <= a <= b -> b <= PyStr.len s ->
  PyStr.slice s a b =
  PyStr.take (Z.to_nat b - Z.to_nat a) (PyStr.drop (Z.to_nat a) s).
Proof.
  intros Hab Hb. unfold PyStr.slice, PyStr.clamp.
  destruct (Z.ltb_spec a 0); [lia|].
  destruct (Z.ltb_spec b 0); [lia|].
  rewrite !Z.min_l by lia.
  f_equal. lia.
Qed.

(** ** Dictionaries *)

Lemma dict_get_set_same {V : Type} (k : string) (v : V) (d : dict V) :
  dict_get k (dict_set k v d) = Some v.
Proof.
  induction d as [|[k' v'] d IH]; simpl.
  - now rewrite String.eqb_refl.
  - destruct (String.eqb k k') eqn:E; simpl.
    + now rewrite String.eqb_refl.
    + now rewrite E.
Qed.

Lemma dict_get_set_other {V : Type} (k k0 : string) (v : V) (d : dict V) :
  k0 <> k -> dict_get k0 (dict_set k v d) = dict_get k0 d.
Proof.
  intros Hne. induction d as [|[k' v'] d IH]; simpl.
  - destruct (String.eqb_spec k0 k); congruence.
  - destruct (String.eqb_spec k k'); simpl.
    + subst k'. destruct (String.eqb_spec k0 k); congruence.
    + destruct (String.eqb_spec k0 k'); auto.
Qed.

Lemma dict_set_length_present {V : Type} (k : string) (v v0 : V) (d : dict V) :
  dict_get k d = Some v0 ->
  List.length (dict_set k v d) = List.length d.
Proof.
  induction d as [|[k' v'] d IH]; simpl; [discriminate|].
  destruct (String.eqb k k'); simpl; auto.
Qed.

Lemma dict_set_length_absent {V : Type} (k : string) (v : V) (d : dict V) :
  dict_get k d = None ->
  List.length (dict_set k v d) = S (List.length d).
Proof.
  induction d as [|[k' v'] d IH]; simpl; auto.
  destruct (String.eqb k k'); simpl; [discriminate | auto].
Qed.

Lemma dict_get_In {V : Type} (k : string) (v : V) (d : dict V) :
  dict_get k d = Some v -> In (k, v) d.
Proof.
  induction d as [|[k' v'] d IH]; simpl; [discriminate|].
  destruct (String.eqb_spec k k').
  - intros [= ->]. subst. now left.
  - intros H. right. auto.
Qed.

Lemma dict_get_keys {V : Type} (k : string) (d : dict V) :
  In k (dict_keys d) <-> dict_get k d <> None.
Proof.
  induction d as [|[k' v'] d IH]; simpl.
  - split; [tauto | congruence].
  - destruct (String.eqb_spec k k').
    + subst. split; [congruence | auto].
    + rewrite <- IH. split; [intros [H|H]; congruence | auto].
Qed.

(** What an assignment leaves in the dictionary: the new binding and
    bindings that were there. *)
Lemma dict_set_In {V : Type} (k : string) (v : V) (d : dict V)
  (k0 : string) (v0 : V) :
  In (k0, v0) (dict_set k v d) -> (k0 = k /\ v0 = v) \/ In (k0, v0) d.
Proof.
  induction d as [|[k' v'] d IH]; simpl.
  - intros [[= <- <-]|[]]. now left.
  - destruct (String.eqb_spec k k').
    + subst k'. intros [[= <- <-]|H]; [now left | now right; right].
    + intros [[= <- <-]|H]; [now right; left|].
      destruct (IH H) as [?|?]; [now left | now right; right].
Qed.

Lemma dict_set_keys {V : Type} (k : string) (v : V) (d : dict V) (k0 : string) :
  In k0 (dict_keys (dict_set k v d)) <-> k0 = k \/ In k0 (dict_keys d).
Proof.
  induction d as [|[k' v'] d IH]; simpl.
  - intuition.
  - destruct (String.eqb_spec k k'); simpl.
    + subst. intuition.
    + rewrite IH. intuition.
Qed.

Lemma dict_set_NoDup {V : Type} (k : string) (v : V) (d : dict V) :
  NoDup (dict_keys d) -> NoDup (dict_keys (dict_set k v d)).
Proof.
  induction d as [|[k' v'] d IH]; simpl; intros Hnd.
  - constructor; [intros [] | constructor].
  - inversion Hnd as [|? ? Hnot Hnd']; subst.
    destruct (String.eqb_spec k k'); simpl.
    + subst. now constructor.
    + constructor; [|auto].
      rewrite dict_set_keys. intros [?|?]; [congruence | contradiction].
Qed.

(** ** The chunking loop *)

Section ChunkLoop.
Variables (doc_id content : string) (chunk_size overlap : Z).

Local Abbreviation L := (PyStr.len content).
Local Abbreviation loop fuel :=
  (DocumentManager.chunk_loop fuel doc_id content chunk_size overlap).
Local Abbreviation w_end s := (window_end content chunk_size s).
Local Abbreviation w_chunk s cid := (window doc_id content chunk_size s cid).
Local Abbreviation w_next s := (next_start content chunk_size overlap s).

Lemma chunk_loop_done (fuel : nat) (s cid : Z) (acc : list DocumentChunk.t) :
  L <= s -> loop fuel s cid acc = Some acc.
Proof.
  intros H. destruct fuel; simpl;
    destruct (Z.ltb_spec s L); auto; lia.
Qed.

Lemma chunk_loop_out_of_fuel (s cid : Z) (acc : list DocumentChunk.t) :
  s < L -> loop 0 s cid acc = None.
Proof.
  intros H. simpl. destruct (Z.ltb_spec s L); auto; lia.
Qed.

Lemma chunk_loop_step (fuel : nat) (s cid : Z) (acc : list DocumentChunk.t) :
  s < L ->
  loop (S fuel) s cid acc =
  loop fuel (w_next s) (cid + 1) (acc ++ [w_chunk s cid]).
Proof.
  intros H. simpl. destruct (Z.ltb_spec s L); [|lia].
  reflexivity.
Qed.

(** The chunks found so far are only carried along. *)
Lemma chunk_loop_acc (fuel : nat) (s cid : Z) (acc : list DocumentChunk.t) :
  loop fuel s cid acc = option_map (app acc) (loop fuel s cid []).
Proof.
  revert s cid acc. induction fuel as [|fuel IH]; intros s cid acc.
  - destruct (Z.lt_ge_cases s L).
    + now rewrite !chunk_loop_out_of_fuel.
    + rewrite !chunk_loop_done by lia. simpl. now rewrite app_nil_r.
  - destruct (Z.lt_ge_cases s L).
    + rewrite !chunk_loop_step by lia.
      rewrite (IH _ _ (acc ++ _)), (IH _ _ ([] ++ _)).
      destruct (loop fuel (w_next s) (cid + 1) []); simpl; auto.
      now rewrite <- app_assoc.
    + rewrite !chunk_loop_done by lia. simpl. now rewrite app_nil_r.
Qed.

(** More fuel does not change a result. *)
Lemma chunk_loop_more_fuel (fuel fuel' : nat) (s cid : Z)
  (acc r : list DocumentChunk.t) :
  loop fuel s cid acc = Some r -> (fuel <= fuel')%nat ->
  loop fuel' s cid acc = Some r.
Proof.
  revert fuel' s cid acc. induction fuel as [|fuel IH]; intros fuel' s cid acc.
  - destruct (Z.lt_ge_cases s L).
    + rewrite chunk_loop_out_of_fuel by lia. discriminate.
    + rewrite !chunk_loop_done by lia. auto.
  - intros Hr Hle. destruct fuel' as [|fuel']; [lia|].
    destruct (Z.lt_ge_cases s L).
    + rewrite chunk_loop_step in * by lia. apply IH; auto. lia.
    + rewrite chunk_loop_done in * by lia. auto.
Qed.

(** With [overlap >= chunk_size] and a text longer than a chunk the
    start never moves forward: no amount of fuel finishes the loop. *)
Lemma chunk_loop_diverges (fuel : nat) (s cid : Z)
  (acc : list DocumentChunk.t) :
  chunk_size <= overlap -> chunk_size < L -> 0 < L -> s <= 0 ->
  loop fuel s cid acc = None.
Proof.
  intros Hov Hcs HL. revert s cid acc.
  induction fuel as [|fuel IH]; intros s cid acc Hs.
  - apply chunk_loop_out_of_fuel. lia.
  - rewrite chunk_loop_step by lia. apply IH.
    unfold next_start, window_end.
    destruct (Z.ltb_spec (Z.min (s + chunk_size) L) L); lia.
Qed.

Hypothesis overlap_ok : 0 <= overlap < chunk_size.

(** The loop from a start [s] that leaves room for the overlap: it
    finishes within [L - s] iterations, and its chunks, each without its
    first [overlap] characters, spell the text from [s + overlap] on. *)
Lemma chunk_loop_from (fuel : nat) (s cid : Z) :
  0 <= s -> s + overlap <= L -> L - s <= Z.of_nat fuel ->
  exists new,
    loop fuel s cid [] = Some new
    /\ PyStr.join (map (without_overlap overlap) new)
       = PyStr.drop (Z.to_nat (s + overlap)) content
    /\ Forall (chunk_in_bounds content) new
    /\ Forall (fun c => s <= DocumentChunk.start_idx c) new
    /\ starts_advance new
    /\ Z.of_nat (List.length new) <= L - s.
Proof.
  revert s cid. induction fuel as [|fuel IH]; intros s cid Hs Hso Hf.
  - exists []. rewrite chunk_loop_done by lia.
    repeat split; try constructor; try (simpl; lia).
    simpl. symmetry. apply drop_all. unfold PyStr.len in *. lia.
  - destruct (Z.lt_ge_cases s L) as [Hlt|Hge].
    2:{ exists []. rewrite chunk_loop_done by lia.
        repeat split; try constructor; try (simpl; lia).
        simpl. symmetry. apply drop_all. unfold PyStr.len in *. lia. }
    rewrite chunk_loop_step, chunk_loop_acc by lia. simpl app.
    assert (Hw : without_overlap overlap (w_chunk s cid)
                 = PyStr.take (Z.to_nat (w_end s) - Z.to_nat (s + overlap))
                     (PyStr.drop (Z.to_nat (s + overlap)) content)).
    { unfold without_overlap, window. simpl.
      rewrite slice_inside by (unfold window_end; lia).
      rewrite drop_take, drop_drop. f_equal; try lia.
      f_equal. lia. }
    assert (Hb : chunk_in_bounds content (w_chunk s cid)).
    { unfold chunk_in_bounds, window, window_end. simpl. lia. }
    unfold next_start. destruct (Z.ltb_spec (w_end s) L) as [He|He].
    + assert (Hws : w_end s = s + chunk_size)
        by (unfold window_end in *; lia).
      destruct (IH (w_end s - overlap) (cid + 1))
        as (rest & Hr & Hj & Hbs & Hge & Hsorted & Hlen); try lia.
      rewrite Hr. exists (w_chunk s cid :: rest). simpl.
      split; [reflexivity|]. split; [|split; [|split; [|split]]].
      * simpl map. rewrite join_cons, Hw, Hj.
        replace (Z.to_nat (w_end s - overlap + overlap))
          with (Z.to_nat (s + overlap)
                + (Z.to_nat (w_end s) - Z.to_nat (s + overlap)))%nat
          by lia.
        rewrite <- drop_drop. apply take_drop_append.
      * constructor; auto.
      * constructor; [simpl; lia|].
        eapply Forall_impl; [|exact Hge]. simpl. intros; lia.
      * unfold starts_advance. constructor; [exact Hsorted|].
        destruct rest as [|r rest']; constructor.
        inversion Hge; subst. simpl. lia.
      * lia.
    + assert (Hws : w_end s = L) by (unfold window_end in *; lia).
      rewrite chunk_loop_done by lia.
      exists [w_chunk s cid]. simpl.
      split; [reflexivity|]. split; [|split; [|split; [|split]]].
      * simpl map. rewrite join_cons, Hw. simpl. rewrite append_empty_r.
        apply take_all. rewrite drop_length. unfold PyStr.len in *. lia.
      * constructor; auto.
      * constructor; [simpl; lia | constructor].
      * repeat constructor.
      * lia.
Qed.

(** The whole loop, from start 0. *)
Lemma chunk_loop_spec (fuel : nat) :
  (String.length content <= fuel)%nat ->
  exists chunks,
    loop fuel 0 0 [] = Some chunks
    /\ reassemble overlap chunks = content
    /\ Forall (chunk_in_bounds content) chunks
    /\ starts_advance chunks
    /\ (List.length chunks <= String.length content)%nat.
Proof.
  intros Hfuel.
  destruct (Z.lt_ge_cases 0 L) as [Hpos|Hempty].
  2:{ exists []. rewrite chunk_loop_done by lia.
      assert (content = EmptyString) as ->
        by (destruct content; auto; unfold PyStr.len in *; simpl in *; lia).
      repeat split; solve [constructor | simpl; lia]. }
  destruct fuel as [|fuel]; [unfold PyStr.len in *; lia|].
  rewrite chunk_loop_step, chunk_loop_acc by lia. simpl app.
  assert (Hb : chunk_in_bounds content (w_chunk 0 0)).
  { unfold chunk_in_bounds, window, window_end. simpl. lia. }
  assert (Hc : DocumentChunk.content (w_chunk 0 0)
               = PyStr.take (Z.to_nat (w_end 0)) content).
  { unfold window. simpl.
    rewrite slice_inside by (unfold window_end; lia).
    simpl. now rewrite Nat.sub_0_r. }
  unfold next_start. destruct (Z.ltb_spec (w_end 0) L) as [He|He].
  - assert (Hws : w_end 0 = chunk_size) by (unfold window_end in *; lia).
    destruct (chunk_loop_from fuel (w_end 0 - overlap) (0 + 1))
      as (rest & Hr & Hj & Hbs & Hge & Hsorted & Hlen);
      try (unfold PyStr.len in *; lia).
    rewrite Hr. exists (w_chunk 0 0 :: rest). simpl option_map.
    split; [reflexivity|]. split; [|split; [|split]].
    + unfold reassemble. rewrite Hc, Hj.
      replace (w_end 0 - overlap + overlap) with (w_end 0) by lia.
      apply take_drop_append.
    + constructor; auto.
    + unfold starts_advance. constructor; [exact Hsorted|].
      destruct rest as [|r rest']; constructor.
      inversion Hge; subst. simpl. lia.
    + simpl. unfold PyStr.len in *. lia.
  - assert (Hws : w_end 0 = L) by (unfold window_end in *; lia).
    rewrite chunk_loop_done by lia.
    exists [w_chunk 0 0]. simpl option_map.
    split; [reflexivity|]. split; [|split; [|split]].
    + unfold reassemble. simpl map. rewrite Hc. unfold PyStr.join. simpl.
      rewrite append_empty_r. apply take_all. unfold PyStr.len in *. lia.
    + constructor; auto.
    + repeat constructor.
    + simpl. unfold PyStr.len in *. lia.
Qed.

End ChunkLoop.

(** The store after [_chunk_document] holds the chunks of the loop under
    the document's identifier. *)
Lemma get_chunks_chunk_document (fuel : nat) (doc : Document.t)
  (chunk_size overlap : Z) (self self' : DocumentManager.t) :
  DocumentManager._chunk_document fuel doc chunk_size overlap self = Some self' ->
  DocumentManager.chunk_loop fuel (Document.id doc) (Document.content doc)
    chunk_size overlap 0 0 []
  = Some (DocumentManager.get_chunks (Document.id doc) self')
  /\ DocumentManager.documents self' = DocumentManager.documents self.
Proof.
  unfold DocumentManager._chunk_document, DocumentManager.get_chunks.
  destruct (DocumentManager.chunk_loop _ _ _ _ _ _ _ _) as [cs|];
    [|discriminate].
  intros [= <-]. simpl. now rewrite dict_get_set_same.
Qed.

Lemma chunk_document_returns (fuel : nat) (doc : Document.t)
  (chunk_size overlap : Z) (self : DocumentManager.t)
  (cs : list DocumentChunk.t) :
  DocumentManager.chunk_loop fuel (Document.id doc) (Document.content doc)
    chunk_size overlap 0 0 [] = Some cs ->
  exists self',
    DocumentManager._chunk_document fuel doc chunk_size overlap self = Some self'
    /\ DocumentManager.get_chunks (Document.id doc) self' = cs.
Proof.
  intros H. unfold DocumentManager._chunk_document. rewrite H.
  eexists. split; [reflexivity|].
  unfold DocumentManager.get_chunks. simpl. now rewrite dict_get_set_same.
Qed.

(** C5. For every document content and chunking parameters with
    [0 <= overlap < chunk_size], [_chunk_document] returns, the chunks it
    stores put back together without their overlaps are the content,
    character for character, and every chunk has
    [0 <= start < end <= len(content)]. *)
Theorem chunk_coverage (doc : Document.t) (chunk_size overlap : Z)
  (self : DocumentManager.t) (fuel : nat) :
  0 <= overlap < chunk_size ->
  (String.length (Document.content doc) <= fuel)%nat ->
  exists self',
    DocumentManager._chunk_document fuel doc chunk_size overlap self
    = Some self'
    /\ reassemble overlap
         (DocumentManager.get_chunks (Document.id doc) self')
       = Document.content doc
    /\ Forall (chunk_in_bounds (Document.content doc))
         (DocumentManager.get_chunks (Document.id doc) self').
Proof.
  intros Hov Hfuel.
  destruct (chunk_loop_spec (Document.id doc) (Document.content doc)
              chunk_size overlap Hov fuel Hfuel)
    as (cs & Hloop & Hre & Hin & _ & _).
  destruct (chunk_document_returns fuel doc chunk_size overlap self cs Hloop)
    as (self' & Hret & Hget).
  exists self'. rewrite Hget. auto.
Qed.

Lemma chunk_coverage_witness :
  exists self',
    DocumentManager._chunk_document 10
      (Document.mk "d" "abcdefghij" [] "h") 4 1 DocumentManager.init
    = Some self'
    /\ reassemble 1 (DocumentManager.get_chunks "d" self') = "abcdefghij"
    /\ Forall (chunk_in_bounds "abcdefghij")
         (DocumentManager.get_chunks "d" self').
Proof.
  apply (chunk_coverage (Document.mk "d" "abcdefghij" [] "h") 4 1
           DocumentManager.init 10).
  - lia.
  - simpl. lia.
Defined.

(** C10. For every text and parameters with [0 < overlap < chunk_size]
    the chunking loop terminates: one iteration per character of the text
    is enough, any larger bound gives the same finite sequence of chunks,
    there are at most [len(content)] of them, and each starts strictly
    after the one before. *)
Theorem chunking_terminates (doc : Document.t) (chunk_size overlap : Z)
  (self : DocumentManager.t) :
  0 < overlap < chunk_size ->
  exists self',
    (forall fuel, (String.length (Document.content doc) <= fuel)%nat ->
       DocumentManager._chunk_document fuel doc chunk_size overlap self
       = Some self')
    /\ starts_advance (DocumentManager.get_chunks (Document.id doc) self')
    /\ (List.length (DocumentManager.get_chunks (Document.id doc) self')
        <= String.length (Document.content doc))%nat.
Proof.
  intros Hov.
  assert (Hov' : 0 <= overlap < chunk_size) by lia.
  destruct (chunk_loop_spec (Document.id doc) (Document.content doc)
              chunk_size overlap Hov' _ (Nat.le_refl _))
    as (cs & Hloop & _ & _ & Hadv & Hlen).
  destruct (chunk_document_returns _ doc chunk_size overlap self cs Hloop)
    as (self' & Hret & Hget).
  exists self'. rewrite Hget. split; [|auto].
  intros fuel Hfuel.
  unfold DocumentManager._chunk_document in *.
  rewrite (chunk_loop_more_fuel _ _ _ _ _ _ _ _ _ cs Hloop Hfuel).
  now rewrite Hloop in Hret.
Qed.

Lemma chunking_terminates_witness :
  exists self',
    (forall fuel, (10 <= fuel)%nat ->
       DocumentManager._chunk_document fuel
         (Document.mk "d" "abcdefghij" [] "h") 4 1 DocumentManager.init
       = Some self')
    /\ starts_advance (DocumentManager.get_chunks "d" self')
    /\ (List.length (DocumentManager.get_chunks "d" self') <= 10)%nat.
Proof.
  apply (chunking_terminates (Document.mk "d" "abcdefghij" [] "h") 4 1
           DocumentManager.init).
  lia.
Defined.

(** C4, counterexample. The chunking that runs without a configuration
    error although
    [overlap >= chunk_size]: a text of 11 characters with
    [chunk_size = overlap = 20] gives one chunk. *)
Lemma chunker_accepts_large_overlap :
  20 <= 20
  /\ DocumentManager._chunk_document 1
       (Document.mk "d" "the cat sat" [] "h") 20 20 DocumentManager.init
     = Some (DocumentManager.mk []
               [("d", [DocumentChunk.mk "d" 0 "the cat sat" 0 11])]).
Proof. split; [lia | vm_compute; reflexivity]. Qed.

(** C4, amended. The chunker has no check of its parameters and no
    configuration error: with [overlap >= chunk_size] and a text no
    longer than [chunk_size] it returns, with no chunk for the empty
    text and one chunk spanning the whole text otherwise. *)
Theorem chunker_does_not_validate (doc : Document.t) (chunk_size overlap : Z)
  (self : DocumentManager.t) (fuel : nat) :
  chunk_size <= overlap ->
  PyStr.len (Document.content doc) <= chunk_size ->
  (1 <= fuel)%nat ->
  exists self',
    DocumentManager._chunk_document fuel doc chunk_size overlap self
    = Some self'
    /\ DocumentManager.get_chunks (Document.id doc) self'
       = match Document.content doc with
         | EmptyString => []
         | _ => [DocumentChunk.mk (Document.id doc) 0 (Document.content doc)
                   0 (PyStr.len (Document.content doc))]
         end.
Proof.
  intros _ Hlen Hfuel.
  apply chunk_document_returns.
  destruct (Document.content doc) as [|c s] eqn:Hc.
  - apply chunk_loop_done. unfold PyStr.len. simpl. lia.
  - destruct fuel as [|fuel]; [lia|].
    rewrite <- Hc in *.
    assert (Hpos : 0 < PyStr.len (Document.content doc))
      by (rewrite Hc; unfold PyStr.len; simpl; lia).
    rewrite chunk_loop_step by lia.
    assert (He : window_end (Document.content doc) chunk_size 0
                 = PyStr.len (Document.content doc))
      by (unfold window_end; lia).
    unfold next_start, window. rewrite He, Z.ltb_irrefl.
    rewrite chunk_loop_done by lia. simpl app.
    rewrite slice_inside by lia. simpl.
    rewrite Nat.sub_0_r, take_all; [reflexivity|].
    unfold PyStr.len. lia.
Qed.

Lemma chunker_does_not_validate_witness :
  exists self',
    DocumentManager._chunk_document 1
      (Document.mk "d" "abc" [] "h") 3 5 DocumentManager.init
    = Some self'
    /\ DocumentManager.get_chunks "d" self'
       = [DocumentChunk.mk "d" 0 "abc" 0 3].
Proof.
  apply (chunker_does_not_validate (Document.mk "d" "abc" [] "h") 3 5
           DocumentManager.init 1).
  - lia.
  - vm_compute. discriminate.
  - lia.
Defined.

(** ** The document store *)

Lemma chunk_loop_doc_id (fuel : nat) (d content : string)
  (chunk_size overlap s cid : Z) (acc r : list DocumentChunk.t) :
  DocumentManager.chunk_loop fuel d content chunk_size overlap s cid acc
  = Some r ->
  Forall (fun c => DocumentChunk.doc_id c = d) acc ->
  Forall (fun c => DocumentChunk.doc_id c = d) r.
Proof.
  revert s cid acc. induction fuel as [|fuel IH]; intros s cid acc.
  - destruct (Z.lt_ge_cases s (PyStr.len content)).
    + rewrite chunk_loop_out_of_fuel by lia. discriminate.
    + rewrite chunk_loop_done by lia. now intros [= <-].
  - destruct (Z.lt_ge_cases s (PyStr.len content)).
    + rewrite chunk_loop_step by lia. intros Hr Hacc.
      apply (IH _ _ _ Hr). apply Forall_app. split; auto.
    + rewrite chunk_loop_done by lia. now intros [= <-].
Qed.

(** [add_document] always returns: the default parameters satisfy
    [0 <= overlap < chunk_size].  It returns the identifier of the
    content, stores the document under it and its chunks under it. *)
Lemma add_document_returns (content : string) (metadata : option Metadata)
  (self : DocumentManager.t) :
  exists cs,
    DocumentManager.add_document content metadata self
    = Some (doc_id_of content,
            DocumentManager.mk
              (dict_set (doc_id_of content)
                 (Document.mk (doc_id_of content) content
                    match metadata with Some m => m | None => [] end
                    (sha256_hex content))
                 (DocumentManager.documents self))
              (dict_set (doc_id_of content) cs
                 (DocumentManager.chunks self)))
    /\ Forall (fun c => DocumentChunk.doc_id c = doc_id_of content) cs
    /\ reassemble DocumentManager.default_overlap cs = content.
Proof.
  unfold DocumentManager.add_document, DocumentManager._chunk_document.
  fold (doc_id_of content). simpl Document.id. simpl Document.content.
  destruct (chunk_loop_spec (doc_id_of content) content
              DocumentManager.default_chunk_size
              DocumentManager.default_overlap) with (fuel := S (String.length content))
    as (cs & Hloop & Hre & _); [vm_compute; split; congruence | lia |].
  rewrite Hloop. exists cs. split; [reflexivity|]. split; [|exact Hre].
  eapply chunk_loop_doc_id; [exact Hloop | constructor].
Qed.

(** C9. Adding a content to a store that already holds a document under
    that content's identifier returns the same identifier, the 16-character
    prefix of the content hash, and leaves the number of documents
    unchanged. *)
Theorem add_document_idempotent (content : string)
  (metadata : option Metadata) (self : DocumentManager.t) :
  DocumentManager.contains (doc_id_of content) self = true ->
  exists self',
    DocumentManager.add_document content metadata self
    = Some (PyStr.slice_to (sha256_hex content) 16, self')
    /\ DocumentManager.len self' = DocumentManager.len self
    /\ DocumentManager.contains (doc_id_of content) self' = true.
Proof.
  intros Hin.
  destruct (add_document_returns content metadata self) as (cs & Hadd & _).
  rewrite Hadd. eexists. split; [reflexivity|].
  unfold DocumentManager.len, DocumentManager.contains, dict_len in *. simpl.
  rewrite dict_get_set_same. split; [|reflexivity].
  destruct (dict_get (doc_id_of content) (DocumentManager.documents self))
    as [d|] eqn:Hget; [|discriminate].
  now rewrite (dict_set_length_present _ _ d).
Qed.

Lemma add_document_idempotent_witness :
  exists self',
    DocumentManager.add_document "the cat sat" None two_documents
    = Some ("77255f02a3435d1f", self')
    /\ DocumentManager.len self' = 2
    /\ DocumentManager.contains "77255f02a3435d1f" self' = true.
Proof.
  apply (add_document_idempotent "the cat sat" None two_documents).
  vm_compute. reflexivity.
Defined.

(** ** Sorting strings *)

Lemma string_leb_trans (a b c : string) :
  String.leb a b = true -> String.leb b c = true -> String.leb a c = true.
Proof.
  unfold String.leb. revert b c.
  induction a as [|x a IH]; intros [|y b] [|z c]; simpl; try easy.
  unfold Ascii.compare.
  destruct (N.compare_spec (N_of_ascii x) (N_of_ascii y)) as [Hxy|Hxy|Hxy];
    destruct (N.compare_spec (N_of_ascii y) (N_of_ascii z)) as [Hyz|Hyz|Hyz];
    destruct (N.compare_spec (N_of_ascii x) (N_of_ascii z)) as [Hxz|Hxz|Hxz];
    try easy; try lia.
  apply IH.
Qed.

(** Two insertions commute: the order is total, antisymmetric and
    transitive. *)
Lemma insert_sorted_comm (x y : string) (l : list string) :
  PyStr.insert_sorted x (PyStr.insert_sorted y l)
  = PyStr.insert_sorted y (PyStr.insert_sorted x l).
Proof.
  induction l as [|z l IH]; simpl.
  - destruct (String.leb x y) eqn:Exy, (String.leb y x) eqn:Eyx; auto.
    + now rewrite (String.leb_antisym _ _ Exy Eyx).
    + destruct (String.leb_total x y); congruence.
  - destruct (String.leb y z) eqn:Eyz, (String.leb x z) eqn:Exz; simpl.
    + destruct (String.leb x y) eqn:Exy, (String.leb y x) eqn:Eyx;
        rewrite ?Eyz, ?Exz; auto.
      * now rewrite (String.leb_antisym _ _ Exy Eyx).
      * destruct (String.leb_total x y); congruence.
    + destruct (String.leb x y) eqn:Exy; rewrite ?Eyz, ?Exz; auto.
      rewrite (string_leb_trans _ _ _ Exy Eyz) in Exz. discriminate.
    + destruct (String.leb y x) eqn:Eyx; rewrite ?Eyz, ?Exz; auto.
      rewrite (string_leb_trans _ _ _ Eyx Exz) in Eyz. discriminate.
    + rewrite Eyz, Exz. now rewrite IH.
Qed.

(** [sorted] depends on the members of the list, not on their order. *)
Lemma sorted_permutation (l1 l2 : list string) :
  Permutation l1 l2 -> PyStr.sorted l1 = PyStr.sorted l2.
Proof.
  induction 1; simpl; try congruence.
  apply insert_sorted_comm.
Qed.

(** ** The commitment *)

Example twins_share_an_identifier :
  doc_id_of twin_a = "f95c8df8be4f7238"
  /\ doc_id_of twin_b = "f95c8df8be4f7238"
  /\ sha256_hex twin_a
     = "f95c8df8be4f723833cb2e2d8f45d70442b07cd98eb65e41f2892a3355391f43"
  /\ sha256_hex twin_b
     = "f95c8df8be4f72385a4b651e9f22fd87a23d2c67bfa819fb125794f6006e0075".
Proof. vm_compute. repeat split. Qed.

(** C2, counterexample. Two insertion orders of one set of two documents
    with different commitments: the documents share their identifier, so the one added
    last replaces the other. *)
Lemma commitment_depends_on_order :
  Permutation [twin_a; twin_b] [twin_b; twin_a]
  /\ exists dm1 dm2,
       DocumentManager.add_documents [twin_a; twin_b] DocumentManager.init
       = Some dm1
       /\ DocumentManager.add_documents [twin_b; twin_a] DocumentManager.init
          = Some dm2
       /\ DocumentManager.generate_commitment dm1
          <> DocumentManager.generate_commitment dm2.
Proof.
  split; [apply perm_swap|].
  destruct (DocumentManager.add_documents [twin_a; twin_b]
              DocumentManager.init) as [dm1|] eqn:E1;
    [|vm_compute in E1; discriminate].
  destruct (DocumentManager.add_documents [twin_b; twin_a]
              DocumentManager.init) as [dm2|] eqn:E2;
    [|vm_compute in E2; discriminate].
  exists dm1, dm2. repeat split.
  vm_compute in E1. vm_compute in E2.
  injection E1 as <-. injection E2 as <-.
  vm_compute. discriminate.
Qed.

Lemma store_of_init (contents : list string) :
  contents = [] -> store_of contents DocumentManager.init.
Proof.
  intros ->. repeat split; simpl; try constructor; intros; contradiction.
Qed.

Lemma store_of_add_document (contents : list string) (c : string)
  (metadata : option Metadata) (self self' : DocumentManager.t) (k : string) :
  store_of contents self ->
  DocumentManager.add_document c metadata self = Some (k, self') ->
  store_of (contents ++ [c]) self'.
Proof.
  intros (Hnd & Hdocs & Hall) Hadd.
  destruct (add_document_returns c metadata self) as (cs & Hret & _).
  rewrite Hret in Hadd. injection Hadd as _ <-. simpl.
  split; [|split]; simpl.
  - now apply dict_set_NoDup.
  - intros k0 d Hin. apply dict_set_In in Hin as [[-> ->]|Hin]; simpl.
    + repeat split. apply in_or_app. right. now left.
    + destruct (Hdocs _ _ Hin) as (? & ? & ?).
      repeat split; auto. apply in_or_app. now left.
  - intros c0 Hin. apply dict_set_keys.
    apply in_app_or in Hin as [Hin|[->|[]]]; auto.
Qed.

Lemma store_of_add_documents (l contents : list string)
  (self : DocumentManager.t) :
  store_of contents self ->
  exists self',
    DocumentManager.add_documents l self = Some self'
    /\ store_of (contents ++ l) self'.
Proof.
  revert contents self. induction l as [|c l IH]; intros contents self Hs.
  - exists self. rewrite app_nil_r. auto.
  - simpl. destruct (add_document_returns c None self) as (cs & Hret & _).
    rewrite Hret.
    destruct (IH (contents ++ [c]) _
                (store_of_add_document _ _ _ _ _ _ Hs Hret))
      as (self' & Hadd & Hs').
    exists self'. split; [exact Hadd|]. now rewrite <- app_assoc in Hs'.
Qed.

(** The hashes in a store whose identifiers determine the hashes: each
    once, and exactly the hashes of the contents. *)
Lemma stored_hashes_spec (contents : list string) (self : DocumentManager.t) :
  store_of contents self -> ids_determine_hashes contents ->
  NoDup (stored_hashes self)
  /\ forall h, In h (stored_hashes self)
       <-> exists c, In c contents /\ h = sha256_hex c.
Proof.
  intros (Hnd & Hdocs & Hall) Hids. unfold stored_hashes, dict_values in *.
  split.
  - apply (NoDup_map_inv (fun h => PyStr.slice_to h 16)).
    rewrite !map_map.
    erewrite map_ext_in; [exact Hnd|].
    intros [k d] Hin. simpl.
    destruct (Hdocs _ _ Hin) as (-> & -> & _). reflexivity.
  - intros h. rewrite map_map, in_map_iff. split.
    + intros ([k d] & <- & Hin). simpl.
      destruct (Hdocs _ _ Hin) as (_ & -> & Hc). eauto.
    + intros (c & Hc & ->).
      specialize (Hall _ Hc). unfold dict_keys in Hall.
      apply in_map_iff in Hall as ([k d] & Hk & Hin). simpl in Hk. subst k.
      exists (doc_id_of c, d). split; [|exact Hin]. simpl.
      destruct (Hdocs _ _ Hin) as (Hid & -> & Hc').
      symmetry. apply Hids; auto.
Qed.

(** C2, amended. For every list of documents in which no two contents
    with different hashes share their 16-character identifier, and every
    reordering of it, the store filled in one order and the store filled
    in the other have the same commitment. *)
Theorem commitment_order_independent (l1 l2 : list string) :
  Permutation l1 l2 ->
  ids_determine_hashes l1 ->
  exists dm1 dm2,
    DocumentManager.add_documents l1 DocumentManager.init = Some dm1
    /\ DocumentManager.add_documents l2 DocumentManager.init = Some dm2
    /\ DocumentManager.generate_commitment dm1
       = DocumentManager.generate_commitment dm2.
Proof.
  intros Hperm Hids.
  assert (Hids2 : ids_determine_hashes l2).
  { intros c c' Hc Hc'.
    apply Hids; apply (Permutation_in _ (Permutation_sym Hperm)); auto. }
  destruct (store_of_add_documents l1 [] _ (store_of_init [] eq_refl))
    as (dm1 & Hadd1 & Hs1).
  destruct (store_of_add_documents l2 [] _ (store_of_init [] eq_refl))
    as (dm2 & Hadd2 & Hs2).
  simpl in Hs1, Hs2.
  destruct (stored_hashes_spec _ _ Hs1 Hids) as (Hnd1 & Hin1).
  destruct (stored_hashes_spec _ _ Hs2 Hids2) as (Hnd2 & Hin2).
  exists dm1, dm2. repeat split; auto.
  unfold DocumentManager.generate_commitment.
  fold (stored_hashes dm1). fold (stored_hashes dm2).
  f_equal. f_equal. apply sorted_permutation.
  apply NoDup_Permutation; auto.
  intros h. rewrite Hin1, Hin2.
  split; intros (c & Hc & ->); exists c; split; auto.
  - exact (Permutation_in c Hperm Hc).
  - exact (Permutation_in c (Permutation_sym Hperm) Hc).
Qed.

Lemma commitment_order_independent_witness :
  exists dm1 dm2,
    DocumentManager.add_documents ["the cat sat"; "the dog ran"]
      DocumentManager.init = Some dm1
    /\ DocumentManager.add_documents ["the dog ran"; "the cat sat"]
         DocumentManager.init = Some dm2
    /\ DocumentManager.generate_commitment dm1
       = DocumentManager.generate_commitment dm2.
Proof.
  apply (commitment_order_independent
           ["the cat sat"; "the dog ran"] ["the dog ran"; "the cat sat"]).
  - apply perm_swap.
  - intros c c' [<-|[<-|[]]] [<-|[<-|[]]]; vm_compute; congruence.
Defined.

(** ** numpy's argsort *)

Section Argsort.
Context {F : Type} {FF : Float F}.
Variable a : Np.vector (F := F).

Lemma argsort_insert_permutation (i : nat) (l : list nat) :
  Permutation (Np.argsort_insert a i l) (i :: l).
Proof.
  induction l as [|j l IH]; simpl; auto.
  destruct (Np.less _ _); auto.
  eapply perm_trans; [apply perm_skip, IH | apply perm_swap].
Qed.

Lemma argsort_upto_permutation (n : nat) :
  Permutation (Np.argsort_upto a n) (seq 0 n).
Proof.
  induction n as [|n IH]; [simpl; auto|].
  cbn [Np.argsort_upto]. rewrite seq_S. cbn [Nat.add].
  eapply perm_trans; [apply argsort_insert_permutation|].
  eapply perm_trans; [apply perm_skip, IH|].
  apply Permutation_cons_append.
Qed.

(** [np.argsort] lists every index of the array once. *)
Lemma argsort_permutation :
  Permutation (Np.argsort a) (seq 0 (List.length a)).
Proof. apply argsort_upto_permutation. Qed.

Lemma argsort_length : List.length (Np.argsort a) = List.length a.
Proof.
  rewrite (Permutation_length argsort_permutation). apply length_seq.
Qed.

Lemma argsort_in_range (i : nat) :
  In i (Np.argsort a) -> (i < List.length a)%nat.
Proof.
  intros H. apply (Permutation_in _ argsort_permutation) in H.
  apply in_seq in H. lia.
Qed.

Hypothesis order_ok : weak_order_on a = true.

Lemma less_asym (i j : nat) :
  (i < List.length a)%nat -> (j < List.length a)%nat ->
  Np.less (nth i a f_zero) (nth j a f_zero) = true ->
  Np.less (nth j a f_zero) (nth i a f_zero) = false.
Proof.
  intros Hi Hj Hlt. unfold weak_order_on in order_ok.
  rewrite forallb_forall in order_ok.
  specialize (order_ok _ (nth_In a f_zero Hi)).
  rewrite forallb_forall in order_ok.
  specialize (order_ok _ (nth_In a f_zero Hj)).
  apply andb_true_iff in order_ok as [H _].
  rewrite Hlt in H. simpl in H. now apply negb_true_iff.
Qed.

Lemma less_trans_not (i j k : nat) :
  (i < List.length a)%nat -> (j < List.length a)%nat ->
  (k < List.length a)%nat ->
  Np.less (nth i a f_zero) (nth j a f_zero) = true ->
  Np.less (nth k a f_zero) (nth j a f_zero) = false ->
  Np.less (nth i a f_zero) (nth k a f_zero) = true.
Proof.
  intros Hi Hj Hk Hlt Hnot. unfold weak_order_on in order_ok.
  rewrite forallb_forall in order_ok.
  specialize (order_ok _ (nth_In a f_zero Hi)).
  rewrite forallb_forall in order_ok.
  specialize (order_ok _ (nth_In a f_zero Hj)).
  apply andb_true_iff in order_ok as [_ H].
  rewrite forallb_forall in H.
  specialize (H _ (nth_In a f_zero Hk)).
  now rewrite Hlt, Hnot in H.
Qed.

(** Inserting index [m] keeps the indices below it in ascending order
    of their values, equal values in the order of their indices. *)
Lemma argsort_insert_sorted (m : nat) (l : list nat) :
  (m < List.length a)%nat ->
  Forall (fun j => (j < m)%nat) l ->
  StronglySorted (sorts_before a) l ->
  StronglySorted (sorts_before a) (Np.argsort_insert a m l).
Proof.
  intros Hm. induction l as [|j l IH]; intros Hlt Hs; simpl.
  - repeat constructor.
  - inversion Hlt as [|? ? Hj Hlt']; subst.
    inversion Hs as [|? ? Hs' Hall]; subst.
    destruct (Np.less (nth m a f_zero) (nth j a f_zero)) eqn:E.
    + constructor; [exact Hs|].
      assert (Hmj : sorts_before a m j) by (left; exact E).
      constructor; [exact Hmj|].
      rewrite Forall_forall in *. intros k Hk.
      left. specialize (Hall _ Hk). specialize (Hlt' _ Hk).
      apply (less_trans_not m j k); try lia; auto.
      destruct Hall as [Hjk|(Hkj & _ & _)]; [|exact Hkj].
      apply less_asym; auto; lia.
    + constructor; [apply IH; auto|].
      rewrite Forall_forall in *. intros k Hk.
      apply (Permutation_in _ (argsort_insert_permutation m l)) in Hk.
      destruct Hk as [<-|Hk]; [|auto].
      destruct (Np.less (nth j a f_zero) (nth m a f_zero)) eqn:E';
        [now left | right; auto].
Qed.

Lemma argsort_upto_sorted (n : nat) :
  (n <= List.length a)%nat ->
  StronglySorted (sorts_before a) (Np.argsort_upto a n).
Proof.
  induction n as [|n IH]; intros Hn; simpl; [constructor|].
  apply argsort_insert_sorted; [lia | | apply IH; lia].
  rewrite Forall_forall. intros j Hj.
  apply (Permutation_in _ (argsort_upto_permutation n)) in Hj.
  apply in_seq in Hj. lia.
Qed.

(** [np.argsort] is ascending and stable. *)
Lemma argsort_sorted : StronglySorted (sorts_before a) (Np.argsort a).
Proof. apply argsort_upto_sorted. lia. Qed.

End Argsort.

(** ** Lists in order *)

Lemma StronglySorted_skipn {A : Type} (R : A -> A -> Prop) (n : nat)
  (l : list A) :
  StronglySorted R l -> StronglySorted R (skipn n l).
Proof.
  revert l. induction n as [|n IH]; intros l H; simpl; auto.
  destruct l as [|x l]; auto. inversion H; auto.
Qed.

Lemma in_skipn {A : Type} (n : nat) (l : list A) (x : A) :
  In x (skipn n l) -> In x l.
Proof.
  intros H. rewrite <- (firstn_skipn n l). apply in_or_app. now right.
Qed.

Lemma StronglySorted_snoc {A : Type} (R : A -> A -> Prop) (l : list A)
  (x : A) :
  StronglySorted R l -> Forall (fun y => R y x) l ->
  StronglySorted R (l ++ [x]).
Proof.
  induction l as [|y l IH]; intros Hs Hall; simpl.
  - repeat constructor.
  - inversion Hs; subst. inversion Hall; subst.
    constructor; auto. apply Forall_app. split; auto.
Qed.

Lemma StronglySorted_rev {A : Type} (R : A -> A -> Prop) (l : list A) :
  StronglySorted R l -> StronglySorted (fun x y => R y x) (rev l).
Proof.
  induction 1 as [|x l Hs IH Hall]; simpl; [constructor|].
  apply StronglySorted_snoc; auto.
  rewrite Forall_forall in *. intros y Hy. apply Hall.
  now apply in_rev.
Qed.

(** ** The vector store *)

Section VectorStoreFacts.
Context {F : Type} {FF : Float F} {C : Type}.
Implicit Types (self : VectorStore.t F C) (query : Np.vector (F := F)).

Lemma cosine_similarity_returns query (vectors : Np.matrix) :
  Forall (fun row => List.length row = List.length query) vectors ->
  VectorStore._cosine_similarity query vectors
  = Ok (similarities query vectors).
Proof.
  intros Hshape. unfold VectorStore._cosine_similarity, Np.dot.
  rewrite (proj2 (forallb_forall _ _)).
  - unfold similarities. now rewrite map_map.
  - intros row Hin. apply in_map_iff in Hin as (v & <- & Hv).
    rewrite Forall_forall in Hshape. unfold Np.div_scalar.
    rewrite !length_map. apply Nat.eqb_eq. auto.
Qed.

Lemma similarities_length query (vectors : Np.matrix) :
  List.length (similarities query vectors) = List.length vectors.
Proof. apply length_map. Qed.

Lemma top_indices_in_range (sims : Np.vector) (top_k : Z) (i : nat) :
  In i (VectorStore.top_indices sims top_k) -> (i < List.length sims)%nat.
Proof.
  unfold VectorStore.top_indices, list_reversed, list_slice_from.
  intros H. apply in_rev in H.
  apply argsort_in_range. exact (in_skipn _ _ _ H).
Qed.

(** How many indices the slice keeps: [min(top_k, n)] for a positive
    [top_k], all [n] for [top_k = 0]. *)
Lemma top_indices_length (sims : Np.vector (F := F)) (top_k : Z) :
  Z.of_nat (List.length (VectorStore.top_indices sims top_k))
  = if 0 <? top_k then Z.min top_k (Z.of_nat (List.length sims))
    else Z.of_nat (List.length sims)
         - Z.min (- top_k) (Z.of_nat (List.length sims)).
Proof.
  unfold VectorStore.top_indices, list_reversed, list_slice_from.
  rewrite length_rev, length_skipn, argsort_length. unfold PyStr.clamp.
  destruct (Z.ltb_spec 0 top_k); destruct (Z.ltb_spec (- top_k) 0); lia.
Qed.

(** Looking up indices inside the list of chunks does not raise. *)
Lemma mapM_chunk_at self (idxs : list nat) :
  Forall (fun i => (i < List.length (VectorStore.chunks self))%nat) idxs ->
  exists results,
    mapM (VectorStore.chunk_at self) idxs = Ok results
    /\ Forall2 (fun i c => nth_error (VectorStore.chunks self) i = Some c)
         idxs results.
Proof.
  induction 1 as [|i idxs Hi _ (results & Hr & Hall)]; simpl.
  - exists []. split; [reflexivity | constructor].
  - unfold VectorStore.chunk_at at 1.
    destruct (nth_error (VectorStore.chunks self) i) as [c|] eqn:E.
    + simpl. rewrite Hr. simpl. exists (c :: results).
      split; [reflexivity | constructor; auto].
    + apply nth_error_None in E. lia.
Qed.

(** On a well-shaped index [search] returns: the chunks at the top
    indices of the similarities, in their order. *)
Lemma search_returns query (top_k : Z) self :
  well_shaped query self ->
  exists results,
    VectorStore.search query top_k self = Ok results
    /\ Forall2 (fun i c => nth_error (VectorStore.chunks self) i = Some c)
         (VectorStore.top_indices
            (similarities query (VectorStore.embeddings self)) top_k)
         results.
Proof.
  intros (Hshape & Hlen). unfold VectorStore.search.
  destruct (VectorStore.embeddings self) as [|row rows] eqn:E.
  - simpl. exists []. split; [reflexivity|].
    unfold VectorStore.top_indices, list_slice_from. simpl.
    rewrite skipn_nil. constructor.
  - cbn [List.length Nat.eqb].
    rewrite cosine_similarity_returns by exact Hshape. simpl bind.
    apply mapM_chunk_at. rewrite Forall_forall. intros i Hi.
    apply top_indices_in_range in Hi.
    rewrite similarities_length in Hi. now rewrite <- Hlen.
Qed.

(** With a positive [top_k] the result has [min(top_k, n)] chunks. *)
Lemma search_length_positive query (top_k : Z) self (results : list C) :
  well_shaped query self -> 0 < top_k ->
  VectorStore.search query top_k self = Ok results ->
  Z.of_nat (List.length results)
  = Z.min top_k (VectorStore.len self).
Proof.
  intros Hw Hk Hs.
  destruct (search_returns query top_k self Hw) as (r & Hr & Hall).
  rewrite Hr in Hs. injection Hs as <-.
  rewrite <- (Forall2_length Hall), top_indices_length, similarities_length.
  unfold VectorStore.len. destruct (Z.ltb_spec 0 top_k); lia.
Qed.

(** With [top_k = 0] the slice [[-0:]] keeps everything: the result has
    one chunk per indexed embedding. *)
Lemma search_length_zero query self (results : list C) :
  well_shaped query self ->
  VectorStore.search query 0 self = Ok results ->
  Z.of_nat (List.length results) = VectorStore.len self.
Proof.
  intros Hw Hs.
  destruct (search_returns query 0 self Hw) as (r & Hr & Hall).
  rewrite Hr in Hs. injection Hs as <-.
  rewrite <- (Forall2_length Hall), top_indices_length, similarities_length.
  unfold VectorStore.len. simpl. lia.
Qed.

(** On an empty index [search] returns no chunk, whatever [top_k]. *)
Lemma search_empty_index query (top_k : Z) (chunks : list C) :
  VectorStore.search query top_k (VectorStore.mk [] chunks) = Ok [].
Proof. reflexivity. Qed.

End VectorStoreFacts.

(** ** Ranking, bounds and rebuilding *)

(** C1, counterexample. Two entries with one embedding, hence one
    similarity to the query:
    [search] returns the one inserted last first. *)
Lemma search_returns_ties_reversed :
  (exists s,
     VectorStore._cosine_similarity axis_x (VectorStore.embeddings tied_store)
     = Ok [s; s])
  /\ VectorStore.search axis_x 2 tied_store = Ok ["c1"; "c0"].
Proof. split; [eexists|]; vm_compute; reflexivity. Qed.

(** The ranking of line 45, [argsort(similarities)[-top_k:][::-1]], for
    any sort that returns indices in ascending order of their values,
    whatever it does with equal values. *)
Section AnySort.
Context {F : Type} {FF : Float F}.
Variable sort : Np.vector (F := F) -> list nat.
Variable sims : Np.vector (F := F).
Hypothesis sort_ascending : ascending sims (sort sims).

Lemma reversed_tail_ranked (top_k : Z) :
  StronglySorted (not_more_similar sims)
    (list_reversed (list_slice_from (sort sims) (- top_k))).
Proof.
  unfold list_reversed, list_slice_from.
  apply (StronglySorted_rev (fun i j => not_more_similar sims j i)).
  apply StronglySorted_skipn. exact sort_ascending.
Qed.

End AnySort.

Lemma StronglySorted_impl_in {A : Type} (R R' : A -> A -> Prop)
  (l : list A) :
  (forall x y, In x l -> In y l -> R x y -> R' x y) ->
  StronglySorted R l -> StronglySorted R' l.
Proof.
  intros Himpl Hs. induction Hs as [|x l Hs IH Hall]; [constructor|].
  constructor.
  - apply IH. intros y z Hy Hz. apply Himpl; now right.
  - rewrite Forall_forall in *. intros y Hy.
    apply Himpl; [now left | now right | auto].
Qed.

(** The model's [argsort] returns indices in ascending order. *)
Lemma argsort_ascending {F : Type} {FF : Float F}
  (a : Np.vector (F := F)) :
  weak_order_on a = true -> ascending a (Np.argsort a).
Proof.
  intros Hord. unfold ascending.
  apply (StronglySorted_impl_in (sorts_before a));
    [|now apply argsort_sorted].
  intros i j Hi Hj [Hlt|(Hji & _ & _)]; [|exact Hji].
  apply argsort_in_range in Hi, Hj.
  unfold not_more_similar. now apply less_asym.
Qed.

(** C1, amended. On every well-shaped index whose similarities to the
    query are ordered by [Np.less], [search] returns the chunks at the top
    indices ranked by similarity, most similar first: no chunk returned
    is more similar to the query than a chunk returned before it.
    Nothing more is fixed for chunks of equal similarity: their order is
    the one the sort leaves, reversed, not the insertion order. *)
Theorem search_ranks_by_similarity {F : Type} {FF : Float F} {C : Type}
  (query : Np.vector (F := F)) (top_k : Z) (self : VectorStore.t F C) :
  well_shaped query self ->
  weak_order_on (similarities query (VectorStore.embeddings self)) = true ->
  exists results,
    VectorStore.search query top_k self = Ok results
    /\ Forall2 (fun i c => nth_error (VectorStore.chunks self) i = Some c)
         (VectorStore.top_indices
            (similarities query (VectorStore.embeddings self)) top_k)
         results
    /\ StronglySorted
         (not_more_similar
            (similarities query (VectorStore.embeddings self)))
         (VectorStore.top_indices
            (similarities query (VectorStore.embeddings self)) top_k).
Proof.
  intros Hshape Hord.
  destruct (search_returns query top_k self Hshape) as (results & Hs & Hall).
  exists results. split; [exact Hs|]. split; [exact Hall|].
  unfold VectorStore.top_indices.
  apply (reversed_tail_ranked Np.argsort). now apply argsort_ascending.
Qed.

Lemma search_ranks_by_similarity_witness :
  exists results,
    VectorStore.search axis_x 2 three_entry_store = Ok results
    /\ Forall2
         (fun i c =>
            nth_error (VectorStore.chunks three_entry_store) i = Some c)
         (VectorStore.top_indices
            (similarities axis_x (VectorStore.embeddings three_entry_store)) 2)
         results
    /\ StronglySorted
         (not_more_similar
            (similarities axis_x (VectorStore.embeddings three_entry_store)))
         (VectorStore.top_indices
            (similarities axis_x (VectorStore.embeddings three_entry_store)) 2).
Proof.
  apply (search_ranks_by_similarity axis_x 2 three_entry_store).
  - split; [|reflexivity]. repeat constructor.
  - vm_compute. reflexivity.
Defined.

Example search_three_entries :
  VectorStore.search axis_y 1 three_entry_store = Ok ["c2"]
  /\ VectorStore.search axis_y 0 one_entry_store = Ok ["c0"].
Proof. vm_compute. repeat split. Qed.

(** C3, at the failing input. With [top_k = 0] on an index of one entry
    [search] returns that entry: one result, where [min(0, 1) = 0] are
    allowed. *)
Theorem search_top_k_zero_returns_all :
  VectorStore.search axis_x 0 one_entry_store = Ok ["c0"]
  /\ VectorStore.len one_entry_store = 1.
Proof. vm_compute. split; reflexivity. Qed.

(** C7, counterexample. An index with rows of different lengths is
    accepted. *)
Lemma add_embeddings_accepts_ragged :
  map (@List.length float) ragged_rows = [2%nat; 1%nat]
  /\ VectorStore.add_embeddings ragged_rows ["c0"; "c1"] one_entry_store
     = (Ok tt, VectorStore.mk ragged_rows ["c0"; "c1"]).
Proof. vm_compute. split; reflexivity. Qed.

(** C7, amended. [add_embeddings] fails exactly when the number of
    embeddings differs from the number of chunks, with [ValueError], and
    then leaves the index as it was; otherwise it replaces embeddings and
    chunks wholesale, whatever the lengths of the vectors. *)
Theorem add_embeddings_checks_arity_only {F : Type} {FF : Float F} {C : Type}
  (embeddings : Np.matrix (F := F)) (chunks : list C)
  (self : VectorStore.t F C) :
  (List.length embeddings <> List.length chunks
   <-> fst (VectorStore.add_embeddings embeddings chunks self)
       = Raise ValueError)
  /\ (List.length embeddings <> List.length chunks ->
      snd (VectorStore.add_embeddings embeddings chunks self) = self)
  /\ (List.length embeddings = List.length chunks ->
      VectorStore.add_embeddings embeddings chunks self
      = (Ok tt, VectorStore.mk embeddings chunks)).
Proof.
  unfold VectorStore.add_embeddings.
  destruct (Nat.eqb_spec (List.length embeddings) (List.length chunks));
    simpl; repeat split; intros; try congruence; try discriminate; auto.
Qed.

(** ** The pipeline *)

Lemma fold_left_app_concat {A : Type} (l : list (list A)) (acc : list A) :
  fold_left (fun all cs => all ++ cs) l acc = acc ++ List.concat l.
Proof.
  revert acc. induction l as [|x l IH]; intros acc; simpl.
  - now rewrite app_nil_r.
  - now rewrite IH, app_assoc.
Qed.

(** [get_all_chunks] lists the chunks of every document. *)
Lemma get_all_chunks_In (dm : DocumentManager.t) (c : DocumentChunk.t) :
  In c (DocumentManager.get_all_chunks dm)
  <-> exists k cs, In (k, cs) (DocumentManager.chunks dm) /\ In c cs.
Proof.
  unfold DocumentManager.get_all_chunks, dict_values.
  rewrite fold_left_app_concat. simpl. rewrite in_concat. split.
  - intros (cs & Hcs & Hc). apply in_map_iff in Hcs as ([k cs'] & <- & Hin).
    eauto.
  - intros (k & cs & Hin & Hc). exists cs. split; auto.
    apply in_map_iff. exists (k, cs). auto.
Qed.

Lemma get_chunks_In (dm : DocumentManager.t) (k : string)
  (c : DocumentChunk.t) :
  In c (DocumentManager.get_chunks k dm) ->
  In c (DocumentManager.get_all_chunks dm).
Proof.
  unfold DocumentManager.get_chunks. intros H. apply get_all_chunks_In.
  destruct (dict_get k (DocumentManager.chunks dm)) as [cs|] eqn:E;
    [|contradiction].
  exists k, cs. split; auto. now apply dict_get_In.
Qed.

Lemma chunks_have_documents_add (content : string)
  (metadata : option Metadata) (dm dm' : DocumentManager.t) (k : string) :
  chunks_have_documents dm ->
  DocumentManager.add_document content metadata dm = Some (k, dm') ->
  chunks_have_documents dm'
  /\ forall k0, In k0 (dict_keys (DocumentManager.documents dm)) ->
       In k0 (dict_keys (DocumentManager.documents dm')).
Proof.
  intros Hok Hadd.
  destruct (add_document_returns content metadata dm) as (cs & Hret & Hids & _).
  rewrite Hret in Hadd. injection Hadd as _ <-. split.
  - intros k0 cs0 c Hin Hc. simpl in *. apply dict_set_keys.
    apply dict_set_In in Hin as [[-> ->]|Hin].
    + left. rewrite Forall_forall in Hids. auto.
    + right. eauto.
  - intros k0 Hk0. simpl. apply dict_set_keys. now right.
Qed.

Lemma mapM_ok {A B : Type} (f : A -> result B) (l : list A) :
  (forall x, In x l -> exists y, f x = Ok y) ->
  exists ys, mapM f l = Ok ys.
Proof.
  induction l as [|x l IH]; intros H; simpl.
  - now exists [].
  - destruct (H x (or_introl eq_refl)) as (y & ->).
    destruct IH as (ys & ->); [intros; apply H; now right|].
    simpl. now exists (y :: ys).
Qed.

Lemma Forall2_In_r {A B : Type} (R : A -> B -> Prop) (l : list A)
  (l' : list B) (y : B) :
  Forall2 R l l' -> In y l' -> exists x, In x l /\ R x y.
Proof.
  induction 1 as [|x y' l l' Hxy _ IH]; simpl; [contradiction|].
  intros [<-|Hin]; [eauto|]. destruct (IH Hin) as (x0 & ? & ?). eauto.
Qed.

Section Pipeline.
Context {F : Type} {FF : Float F}.
Variable encode_text : string -> Np.vector (F := F).
Variable encode_batch : list string -> Np.matrix (F := F).
Variable zkrag_rust : ProofGenerator.request F -> option string.
Variable dim : nat.

(** The batch call returns one vector per text. *)
Hypothesis batch_length :
  forall texts, List.length (encode_batch texts) = List.length texts.

(** What [add_document] does to the pipeline: the document goes into
    the store and, unless the store has no chunk at all, the index is
    rebuilt from the chunks of the whole store in one batch. *)
Lemma add_document_spec (content : string) (metadata : option Metadata)
  (self : PrivateRAG.t) :
  exists dm,
    DocumentManager.add_document content metadata (PrivateRAG.doc_manager self)
    = Some (doc_id_of content, dm)
    /\ PrivateRAG.add_document encode_batch content metadata self
       = Some (Ok (doc_id_of content),
               PrivateRAG.mk dm (PrivateRAG.embedding_gen self)
                 match DocumentManager.get_all_chunks dm with
                 | [] => PrivateRAG.vector_store self
                 | all =>
                     VectorStore.mk
                       (encode_batch (map DocumentChunk.content all)) all
                 end
                 (PrivateRAG.proof_gen self)).
Proof.
  destruct (add_document_returns content metadata (PrivateRAG.doc_manager self))
    as (cs & Hret & _).
  eexists. split; [exact Hret|].
  unfold PrivateRAG.add_document. rewrite Hret.
  unfold PrivateRAG._index_documents. cbn [PrivateRAG.doc_manager].
  match goal with
  | |- context [DocumentManager.get_all_chunks ?d] =>
      destruct (DocumentManager.get_all_chunks d) as [|c all] eqn:E
  end.
  - reflexivity.
  - cbn [PrivateRAG.vector_store PrivateRAG.embedding_gen PrivateRAG.proof_gen].
    unfold VectorStore.add_embeddings.
    rewrite batch_length, length_map, Nat.eqb_refl. reflexivity.
Qed.

(** All vectors of the model have the dimension [dim]. *)
Hypothesis batch_dimension :
  forall texts,
    Forall (fun row => List.length row = dim) (encode_batch texts).
Hypothesis text_dimension :
  forall text, List.length (encode_text text) = dim.

Lemma pipeline_ok_init (model_name : string) (importable : bool) :
  pipeline_ok dim (PrivateRAG.init model_name importable).
Proof.
  repeat split; simpl; try constructor. intros k cs c [].
Qed.

Lemma pipeline_ok_add_document (content : string)
  (metadata : option Metadata) (self self' : PrivateRAG.t)
  (r : result string) :
  pipeline_ok dim self ->
  PrivateRAG.add_document encode_batch content metadata self
  = Some (r, self') ->
  pipeline_ok dim self'
  /\ PrivateRAG.proof_gen self' = PrivateRAG.proof_gen self.
Proof.
  intros (Hdm & Hlen & Hdim & Hdocs) Hadd.
  destruct (add_document_spec content metadata self) as (dm & Hdm' & Hret).
  rewrite Hret in Hadd. injection Hadd as _ <-.
  destruct (chunks_have_documents_add _ _ _ _ _ Hdm Hdm') as (Hok & Hkeys).
  split; [|reflexivity].
  unfold pipeline_ok.
  cbn [PrivateRAG.doc_manager PrivateRAG.vector_store].
  split; [exact Hok|].
  destruct (DocumentManager.get_all_chunks dm) as [|c all] eqn:E.
  - repeat split; auto.
    eapply Forall_impl; [|exact Hdocs]. intros; auto.
  - rewrite <- E. cbn [VectorStore.embeddings VectorStore.chunks].
    rewrite batch_length. change (DocumentChunk.content c :: map _ all)
      with (map DocumentChunk.content (c :: all)).
    rewrite length_map, <- E.
    repeat split; auto.
    rewrite Forall_forall. intros c0 Hc0.
    apply get_all_chunks_In in Hc0 as (k & cs & Hin & Hc). eauto.
Qed.

Lemma reachable_ok (model_name : string) (importable : bool)
  (self : PrivateRAG.t) :
  reachable encode_batch model_name importable self ->
  pipeline_ok dim self
  /\ PrivateRAG.proof_gen self = ProofGenerator.init importable.
Proof.
  induction 1 as [|self content metadata r self' _ (IHok & IHp) Hadd].
  - split; [apply pipeline_ok_init | reflexivity].
  - destruct (pipeline_ok_add_document _ _ _ _ _ IHok Hadd) as (Hok & Hp).
    split; [exact Hok | congruence].
Qed.

(** On a pipeline in order, without proof backend, a query that asks
    for a proof returns a response with the placeholder. *)
Lemma query_placeholder (question : string) (top_k : Z) (now : F)
  (self : PrivateRAG.t) :
  pipeline_ok dim self ->
  ProofGenerator._rust_available (PrivateRAG.proof_gen self) = false ->
  exists response,
    PrivateRAG.query encode_text zkrag_rust question top_k true now self
    = Ok response
    /\ RAGResponse.proof response = Some (PyStr.repeat "0"%char 256).
Proof.
  intros (Hdm & Hlen & Hdim & Hdocs) Hrust. unfold PrivateRAG.query.
  destruct (search_returns (encode_text question) top_k
              (PrivateRAG.vector_store self)) as (results & Hs & Hall).
  { split; [|exact Hlen]. eapply Forall_impl; [|exact Hdim].
    intros row Hrow. simpl in Hrow. now rewrite text_dimension. }
  rewrite Hs. cbn [bind].
  unfold PrivateRAG._generate_query_proof.
  destruct (mapM_ok (PrivateRAG.document_hash_of self)
              (list_set (map DocumentChunk.doc_id results)))
    as (hashes & Hh).
  { intros k Hk. unfold list_set in Hk. apply nodup_In in Hk.
    apply in_map_iff in Hk as (c & <- & Hc).
    destruct (Forall2_In_r _ _ _ _ Hall Hc) as (i & _ & Hnth).
    apply nth_error_In in Hnth.
    rewrite Forall_forall in Hdocs. specialize (Hdocs _ Hnth).
    apply dict_get_keys in Hdocs.
    unfold PrivateRAG.document_hash_of, DocumentManager.get_document.
    destruct (dict_get _ _) as [d|]; [eauto | congruence]. }
  rewrite Hh. cbn [bind].
  unfold ProofGenerator.generate_proof. rewrite Hrust. cbn [negb bind].
  eexists. split; reflexivity.
Qed.

End Pipeline.

Lemma toy_batch_length (texts : list string) :
  List.length (toy_encode_batch texts) = List.length texts.
Proof. apply length_map. Qed.

Lemma toy_text_dimension (text : string) :
  List.length (toy_encode_text text) = 2%nat.
Proof. unfold toy_encode_text. now destruct (mentions_cat text). Qed.

Lemma toy_batch_dimension (texts : list string) :
  Forall (fun row => List.length row = 2%nat) (toy_encode_batch texts).
Proof.
  unfold toy_encode_batch. rewrite Forall_forall. intros row Hrow.
  apply in_map_iff in Hrow as (t & <- & _). apply toy_text_dimension.
Qed.

Lemma toy_pipeline_reachable :
  reachable toy_encode_batch EmbeddingGenerator.default_model_name false
    toy_pipeline_2.
Proof.
  apply (reachable_add_document _ _ _ toy_pipeline_1 "the dog ran" None
           (Ok "71da49e320579945")).
  - apply (reachable_add_document _ _ _ toy_pipeline_0 "the cat sat" None
             (Ok "77255f02a3435d1f")).
    + apply reachable_init.
    + vm_compute. reflexivity.
  - vm_compute. reflexivity.
Qed.

(** C6, counterexample. A new pipeline after one [add_document]: the
    index already holds
    the embedding of the new chunk, and a query returns the chunk. *)
Lemma add_document_indexes_at_once :
  PrivateRAG.add_document toy_encode_batch "the cat sat" None toy_pipeline_0
  = Some (Ok "77255f02a3435d1f", toy_pipeline_1)
  /\ PrivateRAG.vector_store toy_pipeline_1
     = VectorStore.mk [axis_x]
         [DocumentChunk.mk "77255f02a3435d1f" 0 "the cat sat" 0 11]
  /\ exists response,
       PrivateRAG.query toy_encode_text no_rust "cat?" 1 false 0%float
         toy_pipeline_1 = Ok response
       /\ RAGResponse.sources response
          = [DocumentChunk.mk "77255f02a3435d1f" 0 "the cat sat" 0 11].
Proof.
  split; [vm_compute; reflexivity|]. split; [vm_compute; reflexivity|].
  eexists. split; vm_compute; reflexivity.
Qed.

(** C6, amended. Every [add_document] call on the pipeline returns the
    identifier of the content and has rebuilt the index itself: when the
    store holds a chunk, the index holds the chunks of the whole store,
    those of the new document included, with the embeddings of one batch
    call over all of them; a content that is not empty gives a chunk. *)
Theorem add_document_reindexes {F : Type} {FF : Float F}
  (encode_batch : list string -> Np.matrix (F := F))
  (content : string) (metadata : option Metadata) (self : PrivateRAG.t) :
  (forall texts, List.length (encode_batch texts) = List.length texts) ->
  exists self',
    PrivateRAG.add_document encode_batch content metadata self
    = Some (Ok (doc_id_of content), self')
    /\ (forall c,
          In c (DocumentManager.get_chunks (doc_id_of content)
                  (PrivateRAG.doc_manager self')) ->
          In c (DocumentManager.get_all_chunks
                  (PrivateRAG.doc_manager self')))
    /\ (content <> EmptyString ->
        DocumentManager.get_all_chunks (PrivateRAG.doc_manager self') <> [])
    /\ (DocumentManager.get_all_chunks (PrivateRAG.doc_manager self') <> [] ->
        PrivateRAG.vector_store self'
        = VectorStore.mk
            (encode_batch
               (map DocumentChunk.content
                  (DocumentManager.get_all_chunks
                     (PrivateRAG.doc_manager self'))))
            (DocumentManager.get_all_chunks (PrivateRAG.doc_manager self'))).
Proof.
  intros Hlen.
  destruct (add_document_spec encode_batch Hlen content metadata self)
    as (dm & Hdm & Hret).
  eexists. split; [exact Hret|]. cbn [PrivateRAG.doc_manager].
  split; [|split].
  - intros c. apply get_chunks_In.
  - intros Hne Hall.
    destruct (add_document_returns content metadata
                (PrivateRAG.doc_manager self)) as (cs & Hret' & _ & Hre).
    rewrite Hret' in Hdm. injection Hdm as <-.
    destruct cs as [|c cs]; [now apply Hne|].
    assert (Hin : In c (DocumentManager.get_all_chunks
                          (DocumentManager.mk
                             (dict_set (doc_id_of content)
                                (Document.mk (doc_id_of content) content
                                   match metadata with
                                   | Some m => m
                                   | None => []
                                   end (sha256_hex content))
                                (DocumentManager.documents
                                   (PrivateRAG.doc_manager self)))
                             (dict_set (doc_id_of content) (c :: cs)
                                (DocumentManager.chunks
                                   (PrivateRAG.doc_manager self)))))).
    { apply (get_chunks_In _ (doc_id_of content)).
      unfold DocumentManager.get_chunks. simpl.
      rewrite dict_get_set_same. now left. }
    rewrite Hall in Hin. contradiction.
  - cbn [PrivateRAG.vector_store].
    destruct (DocumentManager.get_all_chunks dm); [congruence | reflexivity].
Qed.

Lemma add_document_reindexes_witness :
  exists self',
    PrivateRAG.add_document toy_encode_batch "the dog ran" None toy_pipeline_1
    = Some (Ok (doc_id_of "the dog ran"), self')
    /\ (forall c,
          In c (DocumentManager.get_chunks (doc_id_of "the dog ran")
                  (PrivateRAG.doc_manager self')) ->
          In c (DocumentManager.get_all_chunks
                  (PrivateRAG.doc_manager self')))
    /\ ("the dog ran" <> EmptyString ->
        DocumentManager.get_all_chunks (PrivateRAG.doc_manager self') <> [])
    /\ (DocumentManager.get_all_chunks (PrivateRAG.doc_manager self') <> [] ->
        PrivateRAG.vector_store self'
        = VectorStore.mk
            (toy_encode_batch
               (map DocumentChunk.content
                  (DocumentManager.get_all_chunks
                     (PrivateRAG.doc_manager self'))))
            (DocumentManager.get_all_chunks (PrivateRAG.doc_manager self'))).
Proof.
  apply (add_document_reindexes toy_encode_batch "the dog ran" None
           toy_pipeline_1).
  intros texts. unfold toy_encode_batch. apply length_map.
Defined.

(** C8. On every pipeline built by [add_document] without proof
    backend, for an embedding model that gives one vector per text, all
    of one dimension, a query that asks for a proof returns a response,
    and its proof field is the string of 256 characters ['0']. *)
Theorem query_without_backend_returns_sentinel {F : Type} {FF : Float F}
  (encode_text : string -> Np.vector (F := F))
  (encode_batch : list string -> Np.matrix (F := F))
  (zkrag_rust : ProofGenerator.request F -> option string)
  (dim : nat) (model_name : string) (self : PrivateRAG.t)
  (question : string) (top_k : Z) (now : F) :
  (forall texts, List.length (encode_batch texts) = List.length texts) ->
  (forall texts,
     Forall (fun row => List.length row = dim) (encode_batch texts)) ->
  (forall text, List.length (encode_text text) = dim) ->
  reachable encode_batch model_name false self ->
  exists response,
    PrivateRAG.query encode_text zkrag_rust question top_k true now self
    = Ok response
    /\ RAGResponse.proof response = Some (PyStr.repeat "0"%char 256).
Proof.
  intros Hlen Hdim Htext Hreach.
  destruct (reachable_ok encode_batch dim Hlen Hdim model_name false self
              Hreach) as (Hok & Hp).
  apply (query_placeholder encode_text zkrag_rust dim Htext); auto.
  now rewrite Hp.
Qed.

Lemma query_without_backend_returns_sentinel_witness :
  exists response,
    PrivateRAG.query toy_encode_text no_rust "where is the cat?" 3 true
      1700000000.5%float toy_pipeline_2
    = Ok response
    /\ RAGResponse.proof response = Some (PyStr.repeat "0"%char 256).
Proof.
  apply (query_without_backend_returns_sentinel toy_encode_text
           toy_encode_batch no_rust 2 EmbeddingGenerator.default_model_name
           toy_pipeline_2 "where is the cat?" 3 1700000000.5%float).
  - intros texts. unfold toy_encode_batch. apply length_map.
  - exact toy_batch_dimension.
  - exact toy_text_dimension.
  - exact toy_pipeline_reachable.
Defined.

Example query_toy_pipeline :
  match PrivateRAG.query toy_encode_text no_rust "where is the cat?" 1 true
          1700000000.5%float toy_pipeline_2 with
  | Ok response =>
      map DocumentChunk.content (RAGResponse.sources response)
      = ["the cat sat"]
      /\ option_map String.length (RAGResponse.proof response)
         = Some 256%nat
  | Raise _ => False
  end.
Proof. vm_compute. split; reflexivity. Qed.

(* ================================================================== *)
(** * Further properties of the document store *)

Lemma dict_set_absent {V : Type} (k : string) (v : V) (d : dict V) :
  dict_get k d = None -> dict_set k v d = d ++ [(k, v)].
Proof.
  induction d as [|[k' v'] d IH]; simpl; auto.
  destruct (String.eqb k k'); [discriminate|].
  intros H. now rewrite IH.
Qed.

Lemma dict_set_keys_eq {V W : Type} (k : string) (v : V) (w : W)
  (d : dict V) (e : dict W) :
  dict_keys d = dict_keys e ->
  dict_keys (dict_set k v d) = dict_keys (dict_set k w e).
Proof.
  revert e. induction d as [|[k1 v1] d IH]; intros [|[k2 w2] e] H;
    simpl in *; try discriminate; auto.
  injection H as -> H. destruct (String.eqb k k2); simpl.
  - now rewrite H.
  - f_equal. now apply IH.
Qed.

Lemma dict_get_None_keys {V W : Type} (k : string) (d : dict V) (e : dict W) :
  dict_keys d = dict_keys e -> dict_get k d = None -> dict_get k e = None.
Proof.
  revert e. induction d as [|[k1 v1] d IH]; intros [|[k2 w2] e] H;
    simpl in *; try discriminate; auto.
  injection H as -> H. destruct (String.eqb k k2); [discriminate | auto].
Qed.

(** X1. [add_document] then [get_document]: the document is found under
    the identifier returned, with the content, the metadata given (none
    is the empty dictionary) and the SHA-256 of the content; the
    documents and chunks under every other identifier are as before. *)
Theorem add_document_then_get (content : string)
  (metadata : option Metadata) (self : DocumentManager.t) :
  exists self',
    DocumentManager.add_document content metadata self
    = Some (doc_id_of content, self')
    /\ DocumentManager.get_document (doc_id_of content) self'
       = Some (Document.mk (doc_id_of content) content
                 match metadata with Some m => m | None => [] end
                 (sha256_hex content))
    /\ forall k, k <> doc_id_of content ->
         DocumentManager.get_document k self'
         = DocumentManager.get_document k self
         /\ DocumentManager.get_chunks k self'
            = DocumentManager.get_chunks k self.
Proof.
  destruct (add_document_returns content metadata self) as (cs & Hret & _).
  eexists. split; [exact Hret|].
  unfold DocumentManager.get_document, DocumentManager.get_chunks. simpl.
  split; [apply dict_get_set_same|].
  intros k Hk. now rewrite !dict_get_set_other by exact Hk.
Qed.

(** X2. Adding a content whose identifier the store does not hold makes
    the store one document larger, and the store then holds the
    identifier. *)
Theorem add_document_new_grows (content : string)
  (metadata : option Metadata) (self : DocumentManager.t) :
  DocumentManager.contains (doc_id_of content) self = false ->
  exists self',
    DocumentManager.add_document content metadata self
    = Some (doc_id_of content, self')
    /\ DocumentManager.len self' = DocumentManager.len self + 1
    /\ DocumentManager.contains (doc_id_of content) self' = true.
Proof.
  intros Hnew.
  destruct (add_document_returns content metadata self) as (cs & Hret & _).
  eexists. split; [exact Hret|].
  unfold DocumentManager.len, DocumentManager.contains, dict_len in *. simpl.
  rewrite dict_get_set_same. split; [|reflexivity].
  destruct (dict_get (doc_id_of content) (DocumentManager.documents self))
    eqn:E; [discriminate|].
  rewrite dict_set_length_absent by exact E. lia.
Qed.

Lemma add_document_new_grows_witness :
  exists self',
    DocumentManager.add_document "the cat sat" None DocumentManager.init
    = Some (doc_id_of "the cat sat", self')
    /\ DocumentManager.len self' = 0 + 1
    /\ DocumentManager.contains (doc_id_of "the cat sat") self' = true.
Proof.
  apply (add_document_new_grows "the cat sat" None DocumentManager.init).
  reflexivity.
Defined.

Lemma slice_length (s : string) (a b : Z) :
  0 <= a <= b -> b <= PyStr.len s ->
  PyStr.len (PyStr.slice s a b) = b - a.
Proof.
  intros Hab Hb. rewrite slice_inside by assumption.
  unfold PyStr.len in *. rewrite take_length, drop_length. lia.
Qed.

Section ChunkGeometry.
Variables (doc_id content : string) (chunk_size overlap : Z).
Hypothesis overlap_ok : 0 <= overlap < chunk_size.

Local Abbreviation L := (PyStr.len content).
Local Abbreviation loop fuel :=
  (DocumentManager.chunk_loop fuel doc_id content chunk_size overlap).
Local Abbreviation w_end s := (window_end content chunk_size s).
Local Abbreviation w_chunk s cid := (window doc_id content chunk_size s cid).

Lemma window_well_formed (s cid : Z) :
  0 <= s < L -> chunk_well_formed doc_id content chunk_size (w_chunk s cid).
Proof.
  intros Hs. unfold chunk_well_formed, window, window_end. simpl.
  repeat split; try lia.
  apply slice_length; lia.
Qed.

(** The chunks of the loop from start [s] and identifier [cid]. *)
Lemma chunk_loop_geometry (fuel : nat) (s cid : Z) :
  0 <= s -> L - s <= Z.of_nat fuel ->
  exists new,
    loop fuel s cid [] = Some new
    /\ Forall (chunk_well_formed doc_id content chunk_size) new
    /\ numbered_from cid new
    /\ (forall a, hd_error new = Some a -> DocumentChunk.start_idx a = s)
    /\ (s < L -> new <> [])
    /\ (forall rest a, new = rest ++ [a] -> DocumentChunk.end_idx a = L)
    /\ (forall i a b, nth_error new i = Some a ->
          nth_error new (S i) = Some b ->
          overlaps_next chunk_size overlap a b).
Proof.
  revert s cid. induction fuel as [|fuel IH]; intros s cid Hs Hf.
  - exists []. rewrite chunk_loop_done by lia.
    repeat split; try constructor; try lia; try discriminate;
      try (intros [|x rest] a H; discriminate);
      try (intros [|i] a b H; discriminate).
  - destruct (Z.lt_ge_cases s L) as [Hlt|Hge].
    2:{ exists []. rewrite chunk_loop_done by lia.
        repeat split; try constructor; try lia; try discriminate;
          try (intros [|x rest] a H; discriminate);
          try (intros [|i] a b H; discriminate). }
    rewrite chunk_loop_step, chunk_loop_acc by lia. simpl app.
    pose proof (window_well_formed s cid (conj Hs Hlt)) as Hwf.
    unfold next_start. destruct (Z.ltb_spec (w_end s) L) as [He|He].
    + assert (Hws : w_end s = s + chunk_size)
        by (unfold window_end in *; lia).
      destruct (IH (w_end s - overlap) (cid + 1))
        as (rest & Hr & Hwfs & Hnum & Hhd & Hne & Hlast & Hov); try lia.
      rewrite Hr. exists (w_chunk s cid :: rest). simpl option_map.
      split; [reflexivity|]. split; [constructor; auto|].
      split; [simpl; auto|]. split; [intros a [= <-]; reflexivity|].
      split; [discriminate|]. split.
      * intros [|x rest0] a H; simpl in H.
        -- injection H as _ H. exfalso. apply Hne; [lia | exact H].
        -- injection H as _ H. eauto.
      * intros [|i] a b Ha Hb; simpl in Ha, Hb.
        -- injection Ha as <-. unfold overlaps_next. simpl.
           split; [lia|]. apply Hhd.
           destruct rest; [discriminate | exact Hb].
        -- eauto.
    + assert (Hws : w_end s = L) by (unfold window_end in *; lia).
      rewrite chunk_loop_done by lia.
      exists [w_chunk s cid]. simpl option_map.
      split; [reflexivity|]. split; [constructor; auto|].
      split; [simpl; auto|]. split; [intros a [= <-]; reflexivity|].
      split; [discriminate|]. split.
      * intros [|x [|y rest0]] a H; simpl in H; try discriminate.
        injection H as <-. exact Hws.
      * intros [|[|i]] a b Ha Hb; simpl in Ha, Hb; discriminate.
Qed.

End ChunkGeometry.

(** X3. With [0 <= overlap < chunk_size] the chunks [_chunk_document]
    stores are numbered 0, 1, 2, ..., carry the identifier of the
    document, and each holds the slice of the content between its
    offsets: as many characters as the offsets are apart, at most
    [chunk_size]. *)
Theorem chunks_are_numbered_slices (doc : Document.t)
  (chunk_size overlap : Z) (self : DocumentManager.t) (fuel : nat) :
  0 <= overlap < chunk_size ->
  (String.length (Document.content doc) <= fuel)%nat ->
  exists self',
    DocumentManager._chunk_document fuel doc chunk_size overlap self
    = Some self'
    /\ Forall (chunk_well_formed (Document.id doc) (Document.content doc)
                chunk_size)
         (DocumentManager.get_chunks (Document.id doc) self')
    /\ numbered_from 0 (DocumentManager.get_chunks (Document.id doc) self').
Proof.
  intros Hov Hfuel.
  destruct (chunk_loop_geometry (Document.id doc) (Document.content doc)
              chunk_size overlap Hov fuel 0 0)
    as (cs & Hloop & Hwf & Hnum & _); [lia | unfold PyStr.len; lia |].
  destruct (chunk_document_returns fuel doc chunk_size overlap self cs Hloop)
    as (self' & Hret & Hget).
  exists self'. rewrite Hget. auto.
Qed.

Lemma chunks_are_numbered_slices_witness :
  exists self',
    DocumentManager._chunk_document 10
      (Document.mk "d" "abcdefghij" [] "h") 4 1 DocumentManager.init
    = Some self'
    /\ Forall (chunk_well_formed "d" "abcdefghij" 4)
         (DocumentManager.get_chunks "d" self')
    /\ numbered_from 0 (DocumentManager.get_chunks "d" self').
Proof.
  apply (chunks_are_numbered_slices (Document.mk "d" "abcdefghij" [] "h")
           4 1 DocumentManager.init 10).
  - lia.
  - simpl. lia.
Defined.

(** X4. With [0 <= overlap < chunk_size] the first chunk starts at
    offset 0, the last chunk ends at the end of the content, every chunk
    but the last is [chunk_size] characters long, and each chunk starts
    exactly [overlap] characters before the end of the one before it. *)
Theorem chunks_overlap_exactly (doc : Document.t)
  (chunk_size overlap : Z) (self : DocumentManager.t) (fuel : nat) :
  0 <= overlap < chunk_size ->
  (String.length (Document.content doc) <= fuel)%nat ->
  exists self',
    DocumentManager._chunk_document fuel doc chunk_size overlap self
    = Some self'
    /\ (forall a,
          hd_error (DocumentManager.get_chunks (Document.id doc) self')
          = Some a -> DocumentChunk.start_idx a = 0)
    /\ (forall rest a,
          DocumentManager.get_chunks (Document.id doc) self' = rest ++ [a] ->
          DocumentChunk.end_idx a = PyStr.len (Document.content doc))
    /\ (forall i a b,
          nth_error (DocumentManager.get_chunks (Document.id doc) self') i
          = Some a ->
          nth_error (DocumentManager.get_chunks (Document.id doc) self') (S i)
          = Some b ->
          overlaps_next chunk_size overlap a b).
Proof.
  intros Hov Hfuel.
  destruct (chunk_loop_geometry (Document.id doc) (Document.content doc)
              chunk_size overlap Hov fuel 0 0)
    as (cs & Hloop & _ & _ & Hhd & _ & Hlast & Hnext);
    [lia | unfold PyStr.len; lia |].
  destruct (chunk_document_returns fuel doc chunk_size overlap self cs Hloop)
    as (self' & Hret & Hget).
  exists self'. rewrite Hget. auto.
Qed.

Lemma chunks_overlap_exactly_witness :
  exists self',
    DocumentManager._chunk_document 10
      (Document.mk "d" "abcdefghij" [] "h") 4 1 DocumentManager.init
    = Some self'
    /\ (forall a,
          hd_error (DocumentManager.get_chunks "d" self') = Some a ->
          DocumentChunk.start_idx a = 0)
    /\ (forall rest a,
          DocumentManager.get_chunks "d" self' = rest ++ [a] ->
          DocumentChunk.end_idx a = 10)
    /\ (forall i a b,
          nth_error (DocumentManager.get_chunks "d" self') i = Some a ->
          nth_error (DocumentManager.get_chunks "d" self') (S i) = Some b ->
          overlaps_next 4 1 a b).
Proof.
  apply (chunks_overlap_exactly (Document.mk "d" "abcdefghij" [] "h")
           4 1 DocumentManager.init 10).
  - lia.
  - simpl. lia.
Defined.

(** X5. With [overlap >= chunk_size] and a content longer than
    [chunk_size] the start offset never moves forward: [_chunk_document]
    does not return, whatever the number of iterations allowed. *)
Theorem chunking_runs_forever (doc : Document.t) (chunk_size overlap : Z)
  (self : DocumentManager.t) (fuel : nat) :
  chunk_size <= overlap ->
  chunk_size < PyStr.len (Document.content doc) ->
  0 < PyStr.len (Document.content doc) ->
  DocumentManager._chunk_document fuel doc chunk_size overlap self = None.
Proof.
  intros Hov Hlong Hpos. unfold DocumentManager._chunk_document.
  now rewrite chunk_loop_diverges by (assumption || lia).
Qed.

Lemma chunking_runs_forever_witness :
  DocumentManager._chunk_document 1000
    (Document.mk "d" "abc" [] "h") 2 2 DocumentManager.init = None.
Proof.
  apply (chunking_runs_forever (Document.mk "d" "abc" [] "h") 2 2
           DocumentManager.init 1000); vm_compute; congruence.
Defined.

Lemma keys_in_sync_add_document (content : string)
  (metadata : option Metadata) (self self' : DocumentManager.t) (k : string) :
  keys_in_sync self ->
  DocumentManager.add_document content metadata self = Some (k, self') ->
  keys_in_sync self'.
Proof.
  unfold keys_in_sync. intros Hsync Hadd.
  destruct (add_document_returns content metadata self) as (cs & Hret & _).
  rewrite Hret in Hadd. injection Hadd as _ <-. simpl.
  now apply dict_set_keys_eq.
Qed.

(** X6. A store filled by [add_document] from an empty one holds the
    identifiers of the contents added and no other, each once, and a list
    of chunks under each of them, in the same order. *)
Theorem store_holds_added_identifiers (contents : list string) :
  exists self,
    DocumentManager.add_documents contents DocumentManager.init = Some self
    /\ NoDup (dict_keys (DocumentManager.documents self))
    /\ keys_in_sync self
    /\ forall k,
         DocumentManager.contains k self = true
         <-> exists c, In c contents /\ k = doc_id_of c.
Proof.
  assert (Hgen : forall l self0,
             keys_in_sync self0 ->
             exists self,
               DocumentManager.add_documents l self0 = Some self
               /\ keys_in_sync self).
  { induction l as [|c l IH]; intros self0 Hsync; simpl.
    - eauto.
    - destruct (add_document_returns c None self0) as (cs & Hret & _).
      rewrite Hret. apply IH.
      exact (keys_in_sync_add_document _ _ _ _ _ Hsync Hret). }
  destruct (Hgen contents DocumentManager.init eq_refl) as (self & Hadd & Hsync).
  destruct (store_of_add_documents contents [] DocumentManager.init
              (store_of_init [] eq_refl)) as (self1 & Hadd1 & Hnd & Hdocs & Hall).
  rewrite Hadd in Hadd1. injection Hadd1 as <-. simpl in Hdocs, Hall.
  exists self. repeat split; auto.
  - unfold DocumentManager.contains. intros Hc.
    destruct (dict_get k (DocumentManager.documents self)) as [d|] eqn:E;
      [|discriminate].
    apply dict_get_In in E. destruct (Hdocs _ _ E) as (-> & _ & Hin). eauto.
  - intros (c & Hc & ->). unfold DocumentManager.contains.
    specialize (Hall _ Hc). apply dict_get_keys in Hall.
    destruct (dict_get (doc_id_of c) (DocumentManager.documents self));
      congruence.
Qed.

Lemma get_all_chunks_snoc (docs : dict Document.t)
  (chunks : dict (list DocumentChunk.t)) (k : string)
  (cs : list DocumentChunk.t) :
  DocumentManager.get_all_chunks (DocumentManager.mk docs (chunks ++ [(k, cs)]))
  = DocumentManager.get_all_chunks (DocumentManager.mk docs chunks) ++ cs.
Proof.
  unfold DocumentManager.get_all_chunks, dict_values. simpl.
  rewrite !fold_left_app_concat, map_app, concat_app. simpl.
  now rewrite app_nil_r.
Qed.

(** X7. In a store with a list of chunks per document, adding a content
    whose identifier is new leaves the chunks of the other documents
    where they are in [get_all_chunks] and puts the chunks of the new
    document after them. *)
Theorem add_document_appends_chunks (content : string)
  (metadata : option Metadata) (self : DocumentManager.t) :
  keys_in_sync self ->
  DocumentManager.contains (doc_id_of content) self = false ->
  exists self',
    DocumentManager.add_document content metadata self
    = Some (doc_id_of content, self')
    /\ DocumentManager.get_all_chunks self'
       = DocumentManager.get_all_chunks self
         ++ DocumentManager.get_chunks (doc_id_of content) self'.
Proof.
  intros Hsync Hnew.
  destruct (add_document_returns content metadata self) as (cs & Hret & _).
  eexists. split; [exact Hret|].
  unfold DocumentManager.get_chunks. simpl. rewrite dict_get_set_same.
  assert (Habs : dict_get (doc_id_of content) (DocumentManager.chunks self)
                 = None).
  { apply (dict_get_None_keys _ (DocumentManager.documents self));
      [symmetry; exact Hsync|].
    unfold DocumentManager.contains in Hnew.
    destruct (dict_get _ (DocumentManager.documents self));
      [discriminate | reflexivity]. }
  rewrite (dict_set_absent _ _ _ Habs), get_all_chunks_snoc.
  destruct self; reflexivity.
Qed.

Lemma add_document_appends_chunks_witness :
  exists self',
    DocumentManager.add_document "a third text" None two_documents
    = Some (doc_id_of "a third text", self')
    /\ DocumentManager.get_all_chunks self'
       = DocumentManager.get_all_chunks two_documents
         ++ DocumentManager.get_chunks (doc_id_of "a third text") self'.
Proof.
  apply (add_document_appends_chunks "a third text" None two_documents).
  - vm_compute. reflexivity.
  - vm_compute. reflexivity.
Defined.

Lemma stored_hashes_dict_set (k : string) (doc old : Document.t)
  (docs : dict Document.t) :
  dict_get k docs = Some old ->
  Document.hash old = Document.hash doc ->
  map Document.hash (dict_values (dict_set k doc docs))
  = map Document.hash (dict_values docs).
Proof.
  unfold dict_values.
  induction docs as [|[k' d'] docs IH]; simpl; [discriminate|].
  destruct (String.eqb k k'); simpl.
  - intros [= ->] Hh. now rewrite Hh.
  - intros Hget Hh. now rewrite IH.
Qed.

(** X8. Adding again a content the store holds, whatever the metadata,
    leaves the commitment as it was. *)
Theorem commitment_unchanged_by_readding (content : string)
  (metadata : option Metadata) (self : DocumentManager.t) (old : Document.t) :
  DocumentManager.get_document (doc_id_of content) self = Some old ->
  Document.content old = content ->
  Document.hash old = sha256_hex content ->
  exists self',
    DocumentManager.add_document content metadata self
    = Some (doc_id_of content, self')
    /\ DocumentManager.generate_commitment self'
       = DocumentManager.generate_commitment self.
Proof.
  intros Hget _ Hhash.
  destruct (add_document_returns content metadata self) as (cs & Hret & _).
  eexists. split; [exact Hret|].
  unfold DocumentManager.generate_commitment. simpl.
  now rewrite (stored_hashes_dict_set _ _ old) by assumption.
Qed.

Lemma commitment_unchanged_by_readding_witness :
  exists self',
    DocumentManager.add_document "the cat sat" (Some [("k", "v")])
      two_documents
    = Some (doc_id_of "the cat sat", self')
    /\ DocumentManager.generate_commitment self'
       = DocumentManager.generate_commitment two_documents.
Proof.
  apply (commitment_unchanged_by_readding "the cat sat" (Some [("k", "v")])
           two_documents
           (Document.mk "77255f02a3435d1f" "the cat sat" []
              "77255f02a3435d1feb590482a2f1ebc8895eec0b4264d4f59ad8a9ba0c1cfadf"));
    vm_compute; reflexivity.
Defined.

(** X9. What [export_commitment_data] exports from a store filled by
    [add_document] with contents of which no two share an identifier
    without sharing their hash: the hash of each content once and no
    other, their number as the document count, and as commitment the
    SHA-256 of the exported hashes, sorted and joined. *)
Theorem export_lists_each_hash_once {T : Type} (now : T)
  (contents : list string) :
  ids_determine_hashes contents ->
  exists self,
    DocumentManager.add_documents contents DocumentManager.init = Some self
    /\ NoDup (DocumentManager.document_hashes
               (DocumentManager.export_commitment_data now self))
    /\ (forall h,
          In h (DocumentManager.document_hashes
                  (DocumentManager.export_commitment_data now self))
          <-> exists c, In c contents /\ h = sha256_hex c)
    /\ DocumentManager.document_count
         (DocumentManager.export_commitment_data now self)
       = Z.of_nat (List.length
                     (DocumentManager.document_hashes
                        (DocumentManager.export_commitment_data now self)))
    /\ DocumentManager.commitment
         (DocumentManager.export_commitment_data now self)
       = sha256_hex
           (PyStr.join
              (PyStr.sorted
                 (DocumentManager.document_hashes
                    (DocumentManager.export_commitment_data now self)))).
Proof.
  intros Hids.
  destruct (store_of_add_documents contents [] DocumentManager.init
              (store_of_init [] eq_refl)) as (self & Hadd & Hstore).
  simpl in Hstore.
  destruct (stored_hashes_spec _ _ Hstore Hids) as (Hnd & Hin).
  exists self. split; [exact Hadd|]. simpl.
  split; [exact Hnd|]. split; [exact Hin|]. split; [|reflexivity].
  unfold dict_len, dict_values. now rewrite !length_map.
Qed.

Lemma export_lists_each_hash_once_witness :
  exists self,
    DocumentManager.add_documents ["the cat sat"; "the dog ran"]
      DocumentManager.init = Some self
    /\ NoDup (DocumentManager.document_hashes
               (DocumentManager.export_commitment_data 0 self))
    /\ (forall h,
          In h (DocumentManager.document_hashes
                  (DocumentManager.export_commitment_data 0 self))
          <-> exists c,
                In c ["the cat sat"; "the dog ran"] /\ h = sha256_hex c)
    /\ DocumentManager.document_count
         (DocumentManager.export_commitment_data 0 self)
       = Z.of_nat (List.length
                     (DocumentManager.document_hashes
                        (DocumentManager.export_commitment_data 0 self)))
    /\ DocumentManager.commitment
         (DocumentManager.export_commitment_data 0 self)
       = sha256_hex
           (PyStr.join
              (PyStr.sorted
                 (DocumentManager.document_hashes
                    (DocumentManager.export_commitment_data 0 self)))).
Proof.
  apply (export_lists_each_hash_once 0 ["the cat sat"; "the dog ran"]).
  intros c c' [<-|[<-|[]]] [<-|[<-|[]]]; vm_compute; congruence.
Defined.

(* ================================================================== *)
(** * Further properties of the vector store *)

Lemma StronglySorted_app_inv {A : Type} (R : A -> A -> Prop)
  (l1 l2 : list A) (x y : A) :
  StronglySorted R (l1 ++ l2) -> In x l1 -> In y l2 -> R x y.
Proof.
  induction l1 as [|z l1 IH]; simpl; [contradiction|].
  intros Hs [->|Hx] Hy; inversion Hs as [|? ? Hs' Hall]; subst.
  - rewrite Forall_forall in Hall. apply Hall, in_or_app. now right.
  - now apply IH.
Qed.

Lemma map_Some_inj {A : Type} (l l' : list A) :
  map Some l = map Some l' -> l = l'.
Proof.
  revert l'. induction l as [|x l IH]; intros [|y l'] H; simpl in H;
    try discriminate; auto.
  injection H as -> H. f_equal. auto.
Qed.

Lemma map_nth_error_seq {A : Type} (l : list A) :
  map (nth_error l) (seq 0 (List.length l)) = map Some l.
Proof.
  induction l as [|x l IH]; simpl; auto.
  f_equal. rewrite <- seq_shift, map_map. exact IH.
Qed.

Lemma Forall2_nth_error_map {A : Type} (l : list A) (idxs : list nat)
  (results : list A) :
  Forall2 (fun i c => nth_error l i = Some c) idxs results ->
  map Some results = map (nth_error l) idxs.
Proof.
  induction 1 as [|i c idxs results Hic _ IH]; simpl; auto.
  now rewrite Hic, IH.
Qed.

Section SearchFacts.
Context {F : Type} {FF : Float F} {C : Type}.
Implicit Types (self : VectorStore.t F C) (query : Np.vector (F := F)).

(** X10. On a well-shaped index [search] returns [min(top_k, n)] chunks
    for a positive [top_k], all [n] chunks for [top_k = 0], and
    [max(n + top_k, 0)] chunks for a negative [top_k], [n] being the
    number of embeddings. *)
Theorem search_result_count query (top_k : Z) self :
  well_shaped query self ->
  exists results,
    VectorStore.search query top_k self = Ok results
    /\ (0 < top_k ->
        Z.of_nat (List.length results)
        = Z.min top_k (VectorStore.len self))
    /\ (top_k = 0 ->
        Z.of_nat (List.length results) = VectorStore.len self)
    /\ (top_k < 0 ->
        Z.of_nat (List.length results)
        = Z.max (VectorStore.len self + top_k) 0).
Proof.
  intros Hw.
  destruct (search_returns query top_k self Hw) as (results & Hs & Hall).
  exists results. split; [exact Hs|].
  pose proof (Forall2_length Hall) as Hlen.
  pose proof (top_indices_length
                (similarities query (VectorStore.embeddings self)) top_k)
    as Htop.
  rewrite similarities_length in Htop. unfold VectorStore.len.
  rewrite Hlen in Htop.
  destruct (Z.ltb_spec 0 top_k); repeat split; intros; lia.
Qed.

(** X11. On a well-shaped index whose similarities [Np.less] orders,
    no entry that [search] leaves out is more similar to the query than
    an entry it returns. *)
Theorem search_returns_the_most_similar query (top_k : Z) self :
  well_shaped query self ->
  weak_order_on (similarities query (VectorStore.embeddings self)) = true ->
  exists results,
    VectorStore.search query top_k self = Ok results
    /\ Forall2 (fun i c => nth_error (VectorStore.chunks self) i = Some c)
         (VectorStore.top_indices
            (similarities query (VectorStore.embeddings self)) top_k)
         results
    /\ forall i j,
         In i (VectorStore.top_indices
                 (similarities query (VectorStore.embeddings self)) top_k) ->
         (j < List.length (VectorStore.embeddings self))%nat ->
         ~ In j (VectorStore.top_indices
                   (similarities query (VectorStore.embeddings self)) top_k) ->
         Np.less
           (nth i (similarities query (VectorStore.embeddings self)) f_zero)
           (nth j (similarities query (VectorStore.embeddings self)) f_zero)
         = false.
Proof.
  intros Hw Hord.
  destruct (search_returns query top_k self Hw) as (results & Hs & Hall).
  exists results. split; [exact Hs|]. split; [exact Hall|].
  set (sims := similarities query (VectorStore.embeddings self)) in *.
  unfold VectorStore.top_indices, list_reversed, list_slice_from.
  set (m := Z.to_nat _).
  intros i j Hi Hj Hnot.
  apply in_rev in Hi.
  assert (Hjn : (j < List.length sims)%nat)
    by (unfold sims; now rewrite similarities_length).
  assert (Hin : (i < List.length sims)%nat)
    by (apply argsort_in_range; exact (in_skipn _ _ _ Hi)).
  assert (Hjall : In j (Np.argsort sims)).
  { apply (Permutation_in _ (Permutation_sym (argsort_permutation sims))).
    apply in_seq. lia. }
  rewrite <- (firstn_skipn m (Np.argsort sims)) in Hjall.
  apply in_app_or in Hjall as [Hjfirst|Hjskip].
  2:{ exfalso. apply Hnot. now apply -> in_rev. }
  pose proof (argsort_sorted sims Hord) as Hsorted.
  rewrite <- (firstn_skipn m (Np.argsort sims)) in Hsorted.
  destruct (StronglySorted_app_inv _ _ _ _ _ Hsorted Hjfirst Hi)
    as [Hlt|(Hij & _ & _)]; [|exact Hij].
  now apply less_asym.
Qed.

(** X12. On a well-shaped index [search] returns chunks of the index
    at positions that are all different; with [top_k] at least the
    number of embeddings, or [top_k = 0], it returns every chunk once. *)
Theorem search_returns_distinct_entries query (top_k : Z) self :
  well_shaped query self ->
  exists idxs results,
    VectorStore.search query top_k self = Ok results
    /\ Forall2 (fun i c => nth_error (VectorStore.chunks self) i = Some c)
         idxs results
    /\ NoDup idxs
    /\ (VectorStore.len self <= top_k \/ top_k = 0 ->
        Permutation results (VectorStore.chunks self)).
Proof.
  intros Hw.
  destruct (search_returns query top_k self Hw) as (results & Hs & Hall).
  set (sims := similarities query (VectorStore.embeddings self)) in *.
  exists (VectorStore.top_indices sims top_k), results.
  split; [exact Hs|]. split; [exact Hall|].
  pose proof (Permutation_NoDup (Permutation_sym (argsort_permutation sims))
                (seq_NoDup (List.length sims) 0)) as Hnd.
  split.
  - unfold VectorStore.top_indices, list_reversed, list_slice_from.
    apply NoDup_rev.
    match goal with
    | |- NoDup (skipn ?m _) =>
        rewrite <- (firstn_skipn m (Np.argsort sims)) in Hnd
    end.
    exact (NoDup_app_remove_l _ _ Hnd).
  - intros Hk.
    assert (Htop : VectorStore.top_indices sims top_k = rev (Np.argsort sims)).
    { unfold VectorStore.top_indices, list_reversed, list_slice_from.
      replace (Z.to_nat _) with 0%nat; [reflexivity|].
      unfold PyStr.clamp, VectorStore.len in *.
      rewrite argsort_length. unfold sims. rewrite similarities_length.
      destruct (Z.ltb_spec (- top_k) 0); lia. }
    rewrite Htop in Hall. apply Forall2_nth_error_map in Hall.
    assert (Hperm : Permutation (map Some results)
                      (map Some (VectorStore.chunks self))).
    { rewrite Hall, <- map_nth_error_seq. apply Permutation_map.
      destruct Hw as (_ & Hlen). rewrite <- Hlen.
      unfold sims in *. rewrite <- (similarities_length query).
      eapply perm_trans; [apply Permutation_sym, Permutation_rev|].
      apply argsort_permutation. }
    apply Permutation_map_inv in Hperm as (l3 & Heq & Hp).
    apply map_Some_inj in Heq. subst l3. now apply Permutation_sym.
Qed.

(** X13. On an index that is not empty and whose rows all have a
    dimension other than the query's, [search] raises [ValueError],
    whatever [top_k]. *)
Theorem search_dimension_mismatch query (top_k : Z) self (d : nat) :
  VectorStore.embeddings self <> [] ->
  Forall (fun row => List.length row = d) (VectorStore.embeddings self) ->
  d <> List.length query ->
  VectorStore.search query top_k self = Raise ValueError.
Proof.
  intros Hne Hrows Hd. unfold VectorStore.search.
  destruct (VectorStore.embeddings self) as [|row rows]; [congruence|].
  cbn [List.length Nat.eqb].
  unfold VectorStore._cosine_similarity, Np.dot. cbn [map forallb].
  inversion Hrows as [|? ? Hrow _]; subst.
  unfold Np.div_scalar. rewrite !length_map.
  rewrite (proj2 (Nat.eqb_neq _ _) Hd). reflexivity.
Qed.

End SearchFacts.

Lemma search_result_count_witness :
  exists results,
    VectorStore.search axis_x (-1) three_entry_store = Ok results
    /\ (0 < -1 ->
        Z.of_nat (List.length results)
        = Z.min (-1) (VectorStore.len three_entry_store))
    /\ (-1 = 0 ->
        Z.of_nat (List.length results) = VectorStore.len three_entry_store)
    /\ (-1 < 0 ->
        Z.of_nat (List.length results)
        = Z.max (VectorStore.len three_entry_store + -1) 0).
Proof.
  apply (search_result_count axis_x (-1) three_entry_store).
  split; [|reflexivity]. repeat constructor.
Defined.

Lemma search_returns_the_most_similar_witness :
  exists results,
    VectorStore.search axis_y 1 three_entry_store = Ok results
    /\ Forall2
         (fun i c =>
            nth_error (VectorStore.chunks three_entry_store) i = Some c)
         (VectorStore.top_indices
            (similarities axis_y (VectorStore.embeddings three_entry_store)) 1)
         results
    /\ forall i j,
         In i (VectorStore.top_indices
                 (similarities axis_y
                    (VectorStore.embeddings three_entry_store)) 1) ->
         (j < List.length (VectorStore.embeddings three_entry_store))%nat ->
         ~ In j (VectorStore.top_indices
                   (similarities axis_y
                      (VectorStore.embeddings three_entry_store)) 1) ->
         Np.less
           (nth i (similarities axis_y
                     (VectorStore.embeddings three_entry_store)) f_zero)
           (nth j (similarities axis_y
                     (VectorStore.embeddings three_entry_store)) f_zero)
         = false.
Proof.
  apply (search_returns_the_most_similar axis_y 1 three_entry_store).
  - split; [|reflexivity]. repeat constructor.
  - vm_compute. reflexivity.
Defined.

Lemma search_returns_distinct_entries_witness :
  exists idxs results,
    VectorStore.search axis_x 5 three_entry_store = Ok results
    /\ Forall2
         (fun i c =>
            nth_error (VectorStore.chunks three_entry_store) i = Some c)
         idxs results
    /\ NoDup idxs
    /\ (VectorStore.len three_entry_store <= 5 \/ 5 = 0 ->
        Permutation results (VectorStore.chunks three_entry_store)).
Proof.
  apply (search_returns_distinct_entries axis_x 5 three_entry_store).
  split; [|reflexivity]. repeat constructor.
Defined.

Lemma search_dimension_mismatch_witness :
  VectorStore.search [1%float; 0%float; 0%float] 2 three_entry_store
  = Raise ValueError.
Proof.
  apply (search_dimension_mismatch [1%float; 0%float; 0%float] 2
           three_entry_store 2).
  - discriminate.
  - repeat constructor.
  - discriminate.
Defined.

(* ================================================================== *)
(** * Further properties of the pipeline *)

Section PipelineFacts.
Context {F : Type} {FF : Float F}.
Variable encode_text : string -> Np.vector (F := F).
Variable encode_batch : list string -> Np.matrix (F := F).
Variable zkrag_rust : ProofGenerator.request F -> option string.
Variable dim : nat.

Hypothesis batch_length :
  forall texts, List.length (encode_batch texts) = List.length texts.
Hypothesis batch_dimension :
  forall texts,
    Forall (fun row => List.length row = dim) (encode_batch texts).
Hypothesis text_dimension :
  forall text, List.length (encode_text text) = dim.

(** A pipeline built by [add_document] keeps the model it was created
    with, and once its store holds a chunk its index is the batch
    embedding of the chunks of the store. *)
Lemma reachable_index (model_name : string) (importable : bool)
  (self : PrivateRAG.t) :
  reachable encode_batch model_name importable self ->
  PrivateRAG.embedding_gen self = EmbeddingGenerator.mk model_name
  /\ (DocumentManager.get_all_chunks (PrivateRAG.doc_manager self) <> [] ->
      PrivateRAG.vector_store self
      = VectorStore.mk
          (encode_batch
             (map DocumentChunk.content
                (DocumentManager.get_all_chunks
                   (PrivateRAG.doc_manager self))))
          (DocumentManager.get_all_chunks (PrivateRAG.doc_manager self))).
Proof.
  induction 1 as [|self content metadata r self' _ (IHgen & _) Hadd].
  - split; [reflexivity|]. intros H. exfalso. apply H. reflexivity.
  - destruct (add_document_spec encode_batch batch_length content metadata
                self) as (dm & _ & Hret).
    rewrite Hret in Hadd. injection Hadd as _ <-.
    cbn [PrivateRAG.embedding_gen PrivateRAG.doc_manager
         PrivateRAG.vector_store].
    split; [exact IHgen|].
    destruct (DocumentManager.get_all_chunks dm); [congruence | reflexivity].
Qed.

(** On a pipeline in order the search of a query returns, and the
    documents of the chunks it returns are found in the store. *)
Lemma query_search_and_hashes (question : string) (top_k : Z)
  (self : PrivateRAG.t) :
  pipeline_ok dim self ->
  exists results hashes,
    VectorStore.search (encode_text question) top_k
      (PrivateRAG.vector_store self) = Ok results
    /\ mapM (PrivateRAG.document_hash_of self)
         (list_set (map DocumentChunk.doc_id results)) = Ok hashes.
Proof.
  intros (Hdm & Hlen & Hdim & Hdocs).
  destruct (search_returns (encode_text question) top_k
              (PrivateRAG.vector_store self)) as (results & Hs & Hall).
  { split; [|exact Hlen]. eapply Forall_impl; [|exact Hdim].
    intros row Hrow. simpl in Hrow. now rewrite text_dimension. }
  destruct (mapM_ok (PrivateRAG.document_hash_of self)
              (list_set (map DocumentChunk.doc_id results)))
    as (hashes & Hh); [|eauto].
  intros k Hk. unfold list_set in Hk. apply nodup_In in Hk.
  apply in_map_iff in Hk as (c & <- & Hc).
  destruct (Forall2_In_r _ _ _ _ Hall Hc) as (i & _ & Hnth).
  apply nth_error_In in Hnth.
  rewrite Forall_forall in Hdocs. specialize (Hdocs _ Hnth).
  apply dict_get_keys in Hdocs.
  unfold PrivateRAG.document_hash_of, DocumentManager.get_document.
  destruct (dict_get _ _) as [d|]; [eauto | congruence].
Qed.

(** X14. On a pipeline built by [add_document] whose store holds a
    chunk, [get_stats] reports as number of chunks the size of the index,
    as embedding dimension the length of every vector in the index, and
    as model hash the SHA-256 of the model name the pipeline was created
    with. *)
Theorem get_stats_describes_the_index (model_name : string)
  (importable : bool) (self : PrivateRAG.t) :
  reachable encode_batch model_name importable self ->
  PrivateRAG.num_chunks (PrivateRAG.get_stats encode_text self) <> 0 ->
  PrivateRAG.num_chunks (PrivateRAG.get_stats encode_text self)
  = VectorStore.len (PrivateRAG.vector_store self)
  /\ Forall
       (fun row =>
          Z.of_nat (List.length row)
          = PrivateRAG.embedding_dimension
              (PrivateRAG.get_stats encode_text self))
       (VectorStore.embeddings (PrivateRAG.vector_store self))
  /\ PrivateRAG.model_hash (PrivateRAG.get_stats encode_text self)
     = sha256_hex model_name.
Proof.
  intros Hreach Hn.
  destruct (reachable_index _ _ _ Hreach) as (Hgen & Hidx).
  destruct (reachable_ok encode_batch dim batch_length batch_dimension
              _ _ _ Hreach) as ((_ & Hlen & Hdim & _) & _).
  unfold PrivateRAG.get_stats, PrivateRAG.get_embedding_dimension in *.
  cbn [PrivateRAG.num_chunks PrivateRAG.embedding_dimension
       PrivateRAG.model_hash] in *.
  assert (Hne : DocumentManager.get_all_chunks (PrivateRAG.doc_manager self)
                <> []).
  { intros E. apply Hn. now rewrite E. }
  split; [|split].
  - unfold VectorStore.len. rewrite Hlen, (Hidx Hne). reflexivity.
  - eapply Forall_impl; [|exact Hdim]. intros row Hrow. simpl in Hrow.
    now rewrite Hrow, text_dimension.
  - now rewrite Hgen.
Qed.

(** X15. On a pipeline built by [add_document] a query that asks for
    no proof returns: the sources are the chunks the search returns, in
    their order, the answer is made from them, and the proof field is
    [None], with or without a proof backend. *)
Theorem query_without_proof (model_name : string) (importable : bool)
  (self : PrivateRAG.t) (question : string) (top_k : Z) (now : F) :
  reachable encode_batch model_name importable self ->
  exists results,
    VectorStore.search (encode_text question) top_k
      (PrivateRAG.vector_store self) = Ok results
    /\ PrivateRAG.query encode_text zkrag_rust question top_k false now self
       = Ok (RAGResponse.mk (PrivateRAG._generate_answer question results)
               results question None now).
Proof.
  intros Hreach.
  destruct (reachable_ok encode_batch dim batch_length batch_dimension
              _ _ _ Hreach) as (Hok & _).
  destruct (query_search_and_hashes question top_k self Hok)
    as (results & _ & Hs & _).
  exists results. split; [exact Hs|].
  unfold PrivateRAG.query. now rewrite Hs.
Qed.

(** X16. On a pipeline built by [add_document] with a proof backend,
    a query that asks for a proof hands the backend one request with the
    question, the commitment of the store, the hash of the model name and
    the integer part of the time; if the backend fails the query raises
    [RuntimeError] and returns no sources, otherwise the proof field is
    what the backend returned. *)
Theorem query_with_backend (model_name : string) (self : PrivateRAG.t)
  (question : string) (top_k : Z) (now : F) :
  reachable encode_batch model_name true self ->
  exists request,
    ProofGenerator.query_text F request = question
    /\ ProofGenerator.document_commitment F request
       = DocumentManager.generate_commitment (PrivateRAG.doc_manager self)
    /\ ProofGenerator.model_hash F request = sha256_hex model_name
    /\ ProofGenerator.timestamp F request = f_to_int now
    /\ (zkrag_rust request = None ->
        PrivateRAG.query encode_text zkrag_rust question top_k true now self
        = Raise RuntimeError)
    /\ (forall proof_hex, zkrag_rust request = Some proof_hex ->
        exists response,
          PrivateRAG.query encode_text zkrag_rust question top_k true now self
          = Ok response
          /\ RAGResponse.proof response = Some proof_hex).
Proof.
  intros Hreach.
  destruct (reachable_ok encode_batch dim batch_length batch_dimension
              _ _ _ Hreach) as (Hok & Hp).
  destruct (reachable_index _ _ _ Hreach) as (Hgen & _).
  destruct (query_search_and_hashes question top_k self Hok)
    as (results & hashes & Hs & Hh).
  eexists (ProofGenerator.mk_request F hashes question (encode_text question)
             (map DocumentChunk.chunk_id results)
             (DocumentManager.generate_commitment (PrivateRAG.doc_manager self))
             (sha256_hex model_name) (f_to_int now)).
  cbn [ProofGenerator.query_text ProofGenerator.document_commitment
       ProofGenerator.model_hash ProofGenerator.timestamp].
  repeat split.
  - intros Hfail. unfold PrivateRAG.query. rewrite Hs. cbn [bind].
    unfold PrivateRAG._generate_query_proof. rewrite Hh. cbn [bind].
    unfold ProofGenerator.generate_proof, EmbeddingGenerator.get_model_hash.
    rewrite Hp, Hgen.
    cbn [negb ProofGenerator._rust_available ProofGenerator.init
         EmbeddingGenerator.model_name].
    now rewrite Hfail.
  - intros proof_hex Hsome. unfold PrivateRAG.query. rewrite Hs. cbn [bind].
    unfold PrivateRAG._generate_query_proof. rewrite Hh. cbn [bind].
    unfold ProofGenerator.generate_proof, EmbeddingGenerator.get_model_hash.
    rewrite Hp, Hgen.
    cbn [negb ProofGenerator._rust_available ProofGenerator.init
         EmbeddingGenerator.model_name].
    rewrite Hsome. eexists. split; reflexivity.
Qed.

End PipelineFacts.

Lemma toy_pipeline_backend_reachable :
  reachable toy_encode_batch EmbeddingGenerator.default_model_name true
    toy_pipeline_backend.
Proof.
  apply (reachable_add_document _ _ _
           (PrivateRAG.init EmbeddingGenerator.default_model_name true)
           "the cat sat" None (Ok "77255f02a3435d1f")).
  - apply reachable_init.
  - vm_compute. reflexivity.
Qed.

Lemma get_stats_describes_the_index_witness :
  PrivateRAG.num_chunks (PrivateRAG.get_stats toy_encode_text toy_pipeline_2)
  = VectorStore.len (PrivateRAG.vector_store toy_pipeline_2)
  /\ Forall
       (fun row =>
          Z.of_nat (List.length row)
          = PrivateRAG.embedding_dimension
              (PrivateRAG.get_stats toy_encode_text toy_pipeline_2))
       (VectorStore.embeddings (PrivateRAG.vector_store toy_pipeline_2))
  /\ PrivateRAG.model_hash (PrivateRAG.get_stats toy_encode_text toy_pipeline_2)
     = sha256_hex EmbeddingGenerator.default_model_name.
Proof.
  apply (get_stats_describes_the_index toy_encode_text toy_encode_batch 2
           toy_batch_length toy_batch_dimension toy_text_dimension
           EmbeddingGenerator.default_model_name false toy_pipeline_2
           toy_pipeline_reachable).
  vm_compute. discriminate.
Defined.

Lemma query_without_proof_witness :
  exists results,
    VectorStore.search (toy_encode_text "a dog?") 1
      (PrivateRAG.vector_store toy_pipeline_2) = Ok results
    /\ PrivateRAG.query toy_encode_text no_rust "a dog?" 1 false 0%float
         toy_pipeline_2
       = Ok (RAGResponse.mk (PrivateRAG._generate_answer "a dog?" results)
               results "a dog?" None 0%float).
Proof.
  apply (query_without_proof toy_encode_text toy_encode_batch no_rust 2
           toy_batch_length toy_batch_dimension toy_text_dimension
           EmbeddingGenerator.default_model_name false toy_pipeline_2
           "a dog?" 1 0%float toy_pipeline_reachable).
Defined.

Lemma query_with_backend_witness :
  exists request,
    ProofGenerator.query_text float request = "a cat?"
    /\ ProofGenerator.document_commitment float request
       = DocumentManager.generate_commitment
           (PrivateRAG.doc_manager toy_pipeline_backend)
    /\ ProofGenerator.model_hash float request
       = sha256_hex EmbeddingGenerator.default_model_name
    /\ ProofGenerator.timestamp float request = f_to_int 1700000000.5%float
    /\ (no_rust request = None ->
        PrivateRAG.query toy_encode_text no_rust "a cat?" 1 true
          1700000000.5%float toy_pipeline_backend
        = Raise RuntimeError)
    /\ (forall proof_hex, no_rust request = Some proof_hex ->
        exists response,
          PrivateRAG.query toy_encode_text no_rust "a cat?" 1 true
            1700000000.5%float toy_pipeline_backend
          = Ok response
          /\ RAGResponse.proof response = Some proof_hex).
Proof.
  apply (query_with_backend toy_encode_text toy_encode_batch no_rust 2
           toy_batch_length toy_batch_dimension toy_text_dimension
           EmbeddingGenerator.default_model_name toy_pipeline_backend
           "a cat?" 1 1700000000.5%float toy_pipeline_backend_reachable).
Defined.

Example query_with_failing_backend :
  PrivateRAG.query toy_encode_text no_rust "a cat?" 1 true
    1700000000.5%float toy_pipeline_backend
  = Raise RuntimeError.
Proof. vm_compute. reflexivity. Qed.

(** X17. A query on a new pipeline, without documents and without
    proof backend, returns no sources and the answer that nothing was
    found; its proof field is the placeholder if a proof was asked for
    and [None] otherwise. *)
Theorem query_on_new_pipeline {F : Type} {FF : Float F}
  (encode_text : string -> Np.vector (F := F))
  (zkrag_rust : ProofGenerator.request F -> option string)
  (model_name question : string) (top_k : Z) (generate_proof : bool)
  (now : F) :
  PrivateRAG.query encode_text zkrag_rust question top_k generate_proof now
    (PrivateRAG.init model_name false)
  = Ok (RAGResponse.mk "No relevant information found." [] question
          (if generate_proof then Some (PyStr.repeat "0"%char 256) else None)
          now).
Proof. destruct generate_proof; reflexivity. Qed.

Lemma slice_to_length (s : string) (n : Z) :
  0 <= n -> (String.length (PyStr.slice_to s n) <= Z.to_nat n)%nat.
Proof.
  intros Hn. unfold PyStr.slice_to, PyStr.slice, PyStr.clamp.
  destruct (Z.ltb_spec 0 0); [lia|]. destruct (Z.ltb_spec n 0); [lia|].
  rewrite take_length. unfold PyStr.len. lia.
Qed.

(** X18. The answer made from one or more chunks names their number
    and quotes at most the first 500 characters of the numbered chunk
    texts. *)
Theorem answer_quotes_at_most_500 (question : string)
  (chunks : list DocumentChunk.t) :
  chunks <> [] ->
  exists context,
    PrivateRAG._generate_answer question chunks
    = ("Based on " ++ str_of_int (Z.of_nat (List.length chunks))
         ++ " relevant passages:" ++ LF ++ LF ++ context ++ "...")%string
    /\ (String.length context <= 500)%nat.
Proof.
  intros Hne. destruct chunks as [|c chunks]; [congruence|].
  unfold PrivateRAG._generate_answer.
  eexists. split; [reflexivity|].
  apply (slice_to_length _ 500). lia.
Qed.

Lemma answer_quotes_at_most_500_witness :
  exists context,
    PrivateRAG._generate_answer "a cat?"
      [DocumentChunk.mk "77255f02a3435d1f" 0 "the cat sat" 0 11]
    = ("Based on "
         ++ str_of_int
              (Z.of_nat
                 (List.length
                    [DocumentChunk.mk "77255f02a3435d1f" 0 "the cat sat" 0 11]))
         ++ " relevant passages:" ++ LF ++ LF ++ context ++ "...")%string
    /\ (String.length context <= 500)%nat.
Proof.
  apply (answer_quotes_at_most_500 "a cat?"
           [DocumentChunk.mk "77255f02a3435d1f" 0 "the cat sat" 0 11]).
  discriminate.
Defined.

(* ================================================================== *)
(** * Properties of the verifier interface *)

Lemma rstrip_endswith (c : ascii) (s : string) :
  PyStr.endswith c (PyStr.rstrip c s) = false.
Proof.
  induction s as [|x s IH]; simpl; auto.
  destruct (PyStr.rstrip c s) as [|y r] eqn:E.
  - destruct (Ascii.eqb x c) eqn:Exc; simpl; auto.
  - exact IH.
Qed.

Lemma rstrip_decompose (c : ascii) (s : string) :
  exists k, s = (PyStr.rstrip c s ++ PyStr.repeat c k)%string.
Proof.
  induction s as [|x s (k & IH)]; simpl.
  - now exists 0%nat.
  - destruct (PyStr.rstrip c s) as [|y r] eqn:E.
    + simpl in IH. destruct (Ascii.eqb_spec x c) as [->|Hne].
      * exists (S k). simpl. now rewrite <- IH.
      * exists k. simpl. now rewrite <- IH.
    + exists k. simpl. simpl in IH. now rewrite <- IH.
Qed.

(** X19. The verifier keeps the endpoint it is given without the
    slashes at its end: what it keeps does not end with a slash, and the
    endpoint given is what it keeps followed by slashes only. *)
Theorem verifier_endpoint_has_no_trailing_slash (endpoint : string) :
  PyStr.endswith "/"%char
    (NockchainVerifier.endpoint (NockchainVerifier.init endpoint)) = false
  /\ exists k,
       endpoint
       = (NockchainVerifier.endpoint (NockchainVerifier.init endpoint)
            ++ PyStr.repeat "/"%char k)%string.
Proof.
  split; [apply rstrip_endswith | apply rstrip_decompose].
Qed.

Example verifier_endpoint_stripped :
  NockchainVerifier.endpoint (NockchainVerifier.init "http://host:8080//")
  = "http://host:8080".
Proof. reflexivity. Qed.

Section VerifierFacts.
Variable post : string -> pyvalue -> Z -> http_outcome.
Variable get : string -> Z -> http_outcome.
Variable http_error : Z -> string.

Lemma py_get_dict (data : pyvalue) (key : string) (default v : pyvalue) :
  py_get data key default = Ok v -> exists d, data = PDict d.
Proof. destruct data; simpl; try discriminate. eauto. Qed.

(** X20. [verify_query] reports a proof as valid only when the service
    answered the verification request with a status outside 400..599 and
    a JSON object whose field ["valid"] is true: no failure of the
    request is ever reported as a valid proof. *)
Theorem verify_query_valid_only_if_service_says_so
  (proof document_commitment model_hash : string) (timestamp : Z)
  (self : NockchainVerifier.t) (r : VerificationResult.t) :
  NockchainVerifier.verify_query post http_error proof document_commitment
    model_hash timestamp self = Ok r ->
  VerificationResult.is_valid r = PBool true ->
  exists status_code d,
    post (NockchainVerifier.endpoint self ++ "/api/v1/query/verify")%string
      (PDict [("proof", PStr proof);
              ("document_commitment", PStr document_commitment);
              ("model_hash", PStr model_hash);
              ("timestamp", PInt timestamp)]) 30
    = Responded status_code (PDict d)
    /\ (status_code < 400 \/ 600 <= status_code)
    /\ dict_get "valid" d = Some (PBool true).
Proof.
  intros H Hv. unfold NockchainVerifier.verify_query in H.
  destruct (post _ _ 30) as [e|status_code data].
  - injection H as <-. discriminate.
  - destruct (NockchainVerifier.raises_for_status status_code) eqn:Er.
    + injection H as <-. discriminate.
    + destruct data as [| | | | |d]; simpl in H; try discriminate.
      exists status_code, d. split; [reflexivity|]. split.
      * unfold NockchainVerifier.raises_for_status in Er.
        apply andb_false_iff in Er as [Er|Er];
          [apply Z.leb_gt in Er | apply Z.ltb_ge in Er]; lia.
      * destruct (dict_get "valid" d) as [v|], (dict_get "query_id" d),
          (dict_get "message" d); simpl in H; injection H as <-;
          simpl in Hv; congruence.
Qed.

(** X21. When the verification request fails, or is answered with a
    status from 400 to 599, [verify_query] returns a result that is not
    valid, without query identifier, with the text of the error in its
    message; when it is answered with another status and a JSON value
    that is not an object, [verify_query] raises [AttributeError]. *)
Theorem verify_query_failures
  (proof document_commitment model_hash : string) (timestamp : Z)
  (self : NockchainVerifier.t) :
  let outcome :=
    post (NockchainVerifier.endpoint self ++ "/api/v1/query/verify")%string
      (PDict [("proof", PStr proof);
              ("document_commitment", PStr document_commitment);
              ("model_hash", PStr model_hash);
              ("timestamp", PInt timestamp)]) 30 in
  let verdict :=
    NockchainVerifier.verify_query post http_error proof document_commitment
      model_hash timestamp self in
  (forall e, outcome = RequestFailed e ->
     verdict
     = Ok (VerificationResult.mk (PBool false) PNone
             (PStr ("Verification failed: " ++ e)%string)))
  /\ (forall status_code body,
        outcome = Responded status_code body ->
        400 <= status_code < 600 ->
        verdict
        = Ok (VerificationResult.mk (PBool false) PNone
                (PStr ("Verification failed: "
                         ++ http_error status_code)%string)))
  /\ (forall status_code body,
        outcome = Responded status_code body ->
        status_code < 400 \/ 600 <= status_code ->
        (forall d, body <> PDict d) ->
        verdict = Raise AttributeError).
Proof.
  cbv zeta. unfold NockchainVerifier.verify_query.
  destruct (post _ _ 30) as [e|status_code data]; repeat split.
  - intros e' [= <-]. reflexivity.
  - intros ? ? [=].
  - intros ? ? [=].
  - intros ? [=].
  - intros st body [= <- <-] Hst.
    unfold NockchainVerifier.raises_for_status.
    destruct (Z.leb_spec 400 status_code), (Z.ltb_spec status_code 600);
      try lia. reflexivity.
  - intros st body [= <- <-] Hst Hbody.
    unfold NockchainVerifier.raises_for_status.
    destruct (Z.leb_spec 400 status_code), (Z.ltb_spec status_code 600);
      try lia; simpl andb; cbv iota;
      destruct data; simpl; try reflexivity;
      exfalso; eapply Hbody; reflexivity.
Qed.

(** X22. [health_check] answers true exactly when the request to
    [/health] is answered with status 200; a failed request gives false,
    not an exception. *)
Theorem health_check_iff_status_200 (self : NockchainVerifier.t) :
  NockchainVerifier.health_check get self = true
  <-> exists body,
        get (NockchainVerifier.endpoint self ++ "/health")%string 5
        = Responded 200 body.
Proof.
  unfold NockchainVerifier.health_check.
  destruct (get _ 5) as [e|status_code body]; split.
  - discriminate.
  - intros (b & [=]).
  - intros H. apply Z.eqb_eq in H. subst. eauto.
  - intros (b & [= -> _]). reflexivity.
Qed.

(** X23. [register_commitment] hands back the JSON value the service
    answers with when the status is outside 400..599; for a failed
    request or a status from 400 to 599 the receipt is a dictionary whose
    field ["success"] is false, so that [result.get("success")] is false,
    with the text of the error under ["error"]. *)
Theorem register_commitment_receipt (commitment owner : string)
  (self : NockchainVerifier.t) :
  let outcome :=
    post (NockchainVerifier.endpoint self ++ "/api/v1/document/register")%string
      (PDict [("commitment", PStr commitment); ("owner", PStr owner)]) 10 in
  let receipt :=
    NockchainVerifier.register_commitment post http_error commitment owner
      self in
  (forall status_code body,
     outcome = Responded status_code body ->
     status_code < 400 \/ 600 <= status_code -> receipt = body)
  /\ (forall e, outcome = RequestFailed e ->
        py_get receipt "success" PNone = Ok (PBool false)
        /\ py_get receipt "error" PNone = Ok (PStr e))
  /\ (forall status_code body,
        outcome = Responded status_code body ->
        400 <= status_code < 600 ->
        py_get receipt "success" PNone = Ok (PBool false)
        /\ py_get receipt "error" PNone = Ok (PStr (http_error status_code))).
Proof.
  cbv zeta. unfold NockchainVerifier.register_commitment.
  destruct (post _ _ 10) as [e|status_code data].
  - split; [|split].
    + intros st body H. discriminate H.
    + intros e' H. injection H as <-. split; reflexivity.
    + intros st body H. discriminate H.
  - unfold NockchainVerifier.raises_for_status. split; [|split].
    + intros st body H Hst. injection H as <- <-.
      destruct (Z.leb_spec 400 status_code), (Z.ltb_spec status_code 600);
        try lia; reflexivity.
    + intros e' H. discriminate H.
    + intros st body H Hst. injection H as <- <-.
      destruct (Z.leb_spec 400 status_code), (Z.ltb_spec status_code 600);
        try lia. split; reflexivity.
Qed.

End VerifierFacts.

Lemma verify_query_valid_only_if_service_says_so_witness :
  exists status_code d,
    accepting_service
      (NockchainVerifier.endpoint
         (NockchainVerifier.init NockchainVerifier.default_endpoint)
       ++ "/api/v1/query/verify")%string
      (PDict [("proof", PStr "00"); ("document_commitment", PStr "c");
              ("model_hash", PStr "m"); ("timestamp", PInt 1700000000)]) 30
    = Responded status_code (PDict d)
    /\ (status_code < 400 \/ 600 <= status_code)
    /\ dict_get "valid" d = Some (PBool true).
Proof.
  apply (verify_query_valid_only_if_service_says_so accepting_service
           status_text "00" "c" "m" 1700000000
           (NockchainVerifier.init NockchainVerifier.default_endpoint)
           (VerificationResult.mk (PBool true) (PInt 7) (PStr "verified")));
    reflexivity.
Defined.
